(** * Pixology image generation backend: orchestration pipeline

    A shallow embedding of the TypeScript services
    [ImageGenerationService], [GCPDatabaseService], [GCPStorageService] and
    of the [imageController] handlers, with the properties of the
    generation pipeline proved about them.

    Asynchronous methods are embedded as computations of a state-and-exception
    monad over a [World] that holds the Firestore collections, the storage
    bucket, the log and the trace of calls made to the external services.
    The external services themselves (their faults, the model's reply, the
    uuid generator) are an [External] record the development quantifies
    over. *)

From Stdlib Require Import String Ascii List ZArith Lia Bool Arith.
Import ListNotations.
Open Scope string_scope.

(* ================================================================= *)
(** * JavaScript values *)

Module Js.

(** Truthiness of a string: the empty string is falsy. *)
Definition truthy (s : string) : bool := negb (s =? EmptyString).

(** Truthiness of an optional string field: [undefined] and the empty
    string are falsy. *)
Definition truthy_opt (o : option string) : bool :=
  match o with
  | Some s => truthy s
  | None => false
  end.

(** [Array.prototype.join]. *)
Definition join (sep : string) (l : list string) : string :=
  String.concat sep l.

(** [String.prototype.startsWith]. *)
Definition startsWith (s p : string) : bool := String.prefix p s.

(** [s.substring(0, n)]. *)
Definition substring0 (n : nat) (s : string) : string :=
  String.substring 0 n s.

(** [a || b] on numbers: [0] is falsy. *)
Definition or_num (a : option Z) (b : Z) : Z :=
  match a with
  | Some n => if (n =? 0)%Z then b else n
  | None => b
  end.

(** The characters [String.prototype.trim] removes, among the code units
    below 256 that a [string] holds: TAB, LF, VT, FF and CR (9 to 13), the
    space (32) and the no-break space U+00A0 (160). *)
Definition is_space (c : ascii) : bool :=
  let n := nat_of_ascii c in
  ((n =? 32) || ((9 <=? n) && (n <=? 13)) || (n =? 160))%nat.

Fixpoint all_space (s : string) : bool :=
  match s with
  | EmptyString => true
  | String c s' => is_space c && all_space s'
  end.

(** [s.trim().length === 0]. *)
Definition trim_is_empty (s : string) : bool := all_space s.

(** A thrown value: an [Error] object with its message, or some other
    value. *)
Inductive Thrown : Type :=
| Error (message : string)
| Value (v : string).

(** [error instanceof Error ? error.message : 'Unknown error']. *)
Definition message_of (t : Thrown) : string :=
  match t with
  | Error m => m
  | Value _ => "Unknown error"
  end.

End Js.

(* ================================================================= *)
(** * Data model ([models/Image]) *)

Inductive Quality : Type := standard | high | ultra.

Record Dimensions : Type := mkDimensions {
  width : Z;
  height : Z
}.

Module StyleParams.
Record t : Type := mk {
  style : option string;
  colorScheme : option string;
  mood : option string;
  modifiers : option (list string);
  dimensions : option Dimensions;
  quality : option Quality
}.

(** The object literal [{}]. *)
Definition empty : t := mk None None None None None None.
End StyleParams.

(* ================================================================= *)
(** * Prompt composition ([ImageGenerationService.buildEnhancedPrompt]) *)

(** The local array [styleModifiers] after the four guarded pushes. *)
Definition styleModifiers (sp : StyleParams.t) : list string :=
  (match StyleParams.style sp with
   | Some s => if Js.truthy s then ["in " ++ s ++ " style"] else []
   | None => []
   end)
  ++
  (match StyleParams.colorScheme sp with
   | Some c => if Js.truthy c then ["with " ++ c ++ " color scheme"] else []
   | None => []
   end)
  ++
  (match StyleParams.mood sp with
   | Some m => if Js.truthy m then [m ++ " mood"] else []
   | None => []
   end)
  ++
  (match StyleParams.modifiers sp with
   | Some ms => if (0 <? List.length ms)%nat then ms else []
   | None => []
   end).

(** The value of the local [enhancedPrompt] when the function returns. *)
Definition enhancedPrompt (basePrompt : string)
                          (styleParams : option StyleParams.t) : string :=
  match styleParams with
  | Some sp =>
      let mods := styleModifiers sp in
      if (0 <? List.length mods)%nat
      then basePrompt ++ ", " ++ Js.join ", " mods
      else basePrompt
  | None => basePrompt
  end.


(* ================================================================= *)
(** * Stored records, configuration and results *)

Inductive Status : Type := generating | completed | failed.

(** A document of the images collection: the object literals that
    [generateImage] hands to [create], with the two timestamps [create]
    stamps. A field the literal leaves out is [None]. *)
Module Image.
Record t : Type := mk {
  userId : string;
  prompt : string;
  styleParams : option StyleParams.t;
  gcsUrl : option string;
  gcsBucket : option string;
  gcsPath : option string;
  fileSize : option Z;
  mimeType : option string;
  dimensions : option Dimensions;
  status : Status;
  errorMessage : option string;
  createdAt : option Z;
  updatedAt : option Z
}.

(** [{ ...data, createdAt: now, updatedAt: now }]. *)
Definition stamp (now : Z) (data : t) : t :=
  mk (userId data) (prompt data) (styleParams data) (gcsUrl data)
     (gcsBucket data) (gcsPath data) (fileSize data) (mimeType data)
     (dimensions data) (status data) (errorMessage data)
     (Some now) (Some now).

Definition status_string (s : Status) : string :=
  match s with
  | generating => "generating"
  | completed => "completed"
  | failed => "failed"
  end.

(** The string-valued fields a [where(field, '==', value)] can test. *)
Definition field (name : string) (d : t) : option string :=
  if name =? "userId" then Some (userId d)
  else if name =? "prompt" then Some (prompt d)
  else if name =? "gcsUrl" then gcsUrl d
  else if name =? "gcsBucket" then gcsBucket d
  else if name =? "gcsPath" then gcsPath d
  else if name =? "mimeType" then mimeType d
  else if name =? "errorMessage" then errorMessage d
  else if name =? "status" then Some (status_string (status d))
  else None.

Definition field_is (name value : string) (d : t) : bool :=
  match field name d with
  | Some v => v =? value
  | None => false
  end.
End Image.

(** The part of [config] the pipeline reads. *)
Module Config.
Record t : Type := mk {
  imagesCollection : string;
  bucketName : string;
  publicUrlBase : string;
  imageModel : string;
  maxImagesPerUserPerDay : nat;
  defaultWidth : Z;
  defaultHeight : Z
}.
End Config.

Module UploadResult.
Record t : Type := mk {
  publicUrl : string;
  bucket : string;
  path : string;
  size : Z;
  mimeType : string
}.
End UploadResult.

Module ImageGenerationResult.
Record t : Type := mk {
  imageId : string;
  imageUrl : string;
  dimensions : Dimensions;
  fileSize : Z;
  prompt : string;
  styleParams : option StyleParams.t
}.
End ImageGenerationResult.

(* ================================================================= *)
(** * The world: Firestore, the bucket, the log, the external calls *)

(** An object of the bucket, as [file.save] leaves it. *)
Record GcsFile : Type := mkGcsFile {
  contentType : string;
  content : list Byte.byte;
  metadata : list (string * string);
  public : bool
}.

(** The calls that leave the process. *)
Inductive Call : Type :=
| GenerateContent (model prompt : string)
| FileSave (path : string) (file : GcsFile)
| FileMakePublic (path : string)
| FileGetMetadata (path : string)
| DocSet (collection id : string) (data : Image.t)
| DocGet (collection id : string)
| QueryGet (collection field value : string) (limit : option nat).

Inductive Level : Type := info | warn | error.

(** A collection lists its documents in ascending order of document id, the
    order in which Firestore returns the documents of a query that has no
    [orderBy]. *)
Definition Collection : Type := list (string * Image.t).

Record World : Type := mkWorld {
  firestore : string -> Collection;
  gcs : list (string * GcsFile);
  log : list (Level * string);
  trace : list Call;
  calls : nat;
  uuids : nat;
  clock : Z
}.

(** [trace] lists the external calls made so far, oldest first, and [calls]
    counts them. *)

(** What the process does not decide: the uuid generator, the faults of the
    external calls (by the number of calls made before and the call), the
    candidates the model answers with, and the platform's [path.extname],
    [Date.prototype.setHours(0,0,0,0)] and [Date.prototype.toISOString]. *)
Record External : Type := mkExternal {
  uuidv4 : nat -> string;
  fault : nat -> Call -> option Js.Thrown;
  candidates : nat -> string -> option (list string);
  extname : string -> string;
  startOfDay : Z -> Z;
  toISOString : Z -> string
}.

Fixpoint lookup {A : Type} (k : string) (l : list (string * A)) : option A :=
  match l with
  | [] => None
  | (k', v) :: l' => if k' =? k then Some v else lookup k l'
  end.

(** [doc(id).set(data)]: replaces the document of that id, or adds it at its
    place in the order of ids. *)
Fixpoint doc_set (id : string) (d : Image.t) (c : Collection) : Collection :=
  match c with
  | [] => [(id, d)]
  | (id', d') :: c' =>
      match String.compare id id' with
      | Eq => (id, d) :: c'
      | Lt => (id, d) :: (id', d') :: c'
      | Gt => (id', d') :: doc_set id d c'
      end
  end.

Definition set_firestore (coll id : string) (d : Image.t) (w : World) : World :=
  mkWorld (fun c => if c =? coll then doc_set id d (firestore w c)
                    else firestore w c)
          (gcs w) (log w) (trace w) (calls w) (uuids w) (clock w).

Definition put_file (path : string) (f : GcsFile) (w : World) : World :=
  mkWorld (firestore w) ((path, f) :: gcs w) (log w) (trace w) (calls w)
          (uuids w) (clock w).

Definition add_log (l : Level) (msg : string) (w : World) : World :=
  mkWorld (firestore w) (gcs w) (log w ++ [(l, msg)]) (trace w) (calls w)
          (uuids w) (clock w).

Definition add_call (c : Call) (w : World) : World :=
  mkWorld (firestore w) (gcs w) (log w) (trace w ++ [c]) (S (calls w))
          (uuids w) (clock w).

Definition next_uuid (w : World) : World :=
  mkWorld (firestore w) (gcs w) (log w) (trace w) (calls w) (S (uuids w))
          (clock w).

(* ================================================================= *)
(** * The monad of asynchronous methods *)

Inductive Outcome (A : Type) : Type :=
| Ok (a : A)
| Throw (t : Js.Thrown).
Arguments Ok {A} a.
Arguments Throw {A} t.

Definition M (A : Type) : Type := World -> Outcome A * World.

Definition ret {A : Type} (a : A) : M A := fun w => (Ok a, w).

Definition bind {A B : Type} (m : M A) (k : A -> M B) : M B :=
  fun w =>
    match m w with
    | (Ok a, w') => k a w'
    | (Throw t, w') => (Throw t, w')
    end.

Definition throw {A : Type} (t : Js.Thrown) : M A := fun w => (Throw t, w).

(** [try { m } catch (e) { h e }]. *)
Definition try_catch {A : Type} (m : M A) (h : Js.Thrown -> M A) : M A :=
  fun w =>
    match m w with
    | (Ok a, w') => (Ok a, w')
    | (Throw t, w') => h t w'
    end.

Definition gets {A : Type} (f : World -> A) : M A := fun w => (Ok (f w), w).

Definition modify (f : World -> World) : M unit := fun w => (Ok tt, f w).

Declare Scope js_scope.
Delimit Scope js_scope with js.
Notation "x <- m ;; k" := (bind m (fun x => k))
  (at level 100, m at next level, right associativity) : js_scope.
Notation "m ;;; k" := (bind m (fun _ => k))
  (at level 100, right associativity) : js_scope.
Open Scope js_scope.

(** [logger.info], [logger.warn], [logger.error]. *)
Definition logger (l : Level) (msg : string) : M unit := modify (add_log l msg).

(** [new Date()]. *)
Definition Date_now : M Z := gets clock.

Section Primitives.
Variable ext : External.

(** [uuidv4()]. *)
Definition uuid : M string :=
  fun w => (Ok (uuidv4 ext (uuids w)), next_uuid w).

(** An awaited call to an external service: it is recorded, and throws
    when the service faults. *)
Definition call (c : Call) : M unit :=
  fun w =>
    match fault ext (calls w) c with
    | Some t => (Throw t, add_call c w)
    | None => (Ok tt, add_call c w)
    end.

(** [await model.generateContent(prompt)] then [await result.response]:
    the [candidates] field of the response. *)
Definition generateContent (model prompt : string)
  : M (option (list string)) :=
  fun w =>
    match call (GenerateContent model prompt) w with
    | (Ok _, w') => (Ok (candidates ext (calls w) prompt), w')
    | (Throw t, w') => (Throw t, w')
    end.
End Primitives.

(* ================================================================= *)
(** * [Buffer.from(s, 'base64')] *)

(** Node's decoder of base64 text: characters outside the alphabet are
    skipped, the first ['='] ends the input, the standard and the URL-safe
    alphabets are both read, and a last group of two or three characters
    yields one or two bytes. *)
Module Buffer.

Definition sextet (c : ascii) : option N :=
  let n := N_of_ascii c in
  if ((65 <=? n) && (n <=? 90))%N then Some (n - 65)%N
  else if ((97 <=? n) && (n <=? 122))%N then Some (n - 71)%N
  else if ((48 <=? n) && (n <=? 57))%N then Some (n + 4)%N
  else if ((n =? 43) || (n =? 45))%N then Some 62%N
  else if ((n =? 47) || (n =? 95))%N then Some 63%N
  else None.

Fixpoint sextets (s : string) : list N :=
  match s with
  | EmptyString => []
  | String c s' =>
      if (N_of_ascii c =? 61)%N then []
      else match sextet c with
           | Some v => v :: sextets s'
           | None => sextets s'
           end
  end.

Definition byte_of (n : N) : Byte.byte :=
  byte_of_ascii (ascii_of_N (n mod 256)).

Fixpoint bytes (fuel : nat) (l : list N) : list Byte.byte :=
  match fuel with
  | O => []
  | S fuel' =>
      match l with
      | a :: b :: c :: d :: l' =>
          byte_of (a * 4 + b / 16)
            :: byte_of ((b mod 16) * 16 + c / 4)
            :: byte_of ((c mod 4) * 64 + d)
            :: bytes fuel' l'
      | [a; b; c] =>
          [byte_of (a * 4 + b / 16); byte_of ((b mod 16) * 16 + c / 4)]
      | [a; b] => [byte_of (a * 4 + b / 16)]
      | _ => []
      end
  end.

Definition from_base64 (s : string) : list Byte.byte :=
  let l := sextets s in bytes (S (List.length l)) l.

End Buffer.

(* ================================================================= *)
(** * [GCPDatabaseService] *)

Module GCPDatabaseService.
Section Methods.
Variable ext : External.

Definition create (collectionName id : string) (data : Image.t) : M unit :=
  try_catch
    (now <- Date_now ;;
     let doc := Image.stamp now data in
     call ext (DocSet collectionName id doc) ;;;
     modify (set_firestore collectionName id doc) ;;;
     logger info ("Document created in " ++ collectionName))
    (fun e =>
       logger error ("Failed to create document in " ++ collectionName) ;;;
       throw e).

Definition findById (collectionName id : string)
  : M (option (string * Image.t)) :=
  try_catch
    (call ext (DocGet collectionName id) ;;;
     doc <- gets (fun w => lookup id (firestore w collectionName)) ;;
     match doc with
     | None => ret None
     | Some d => ret (Some (id, d))
     end)
    (fun e =>
       logger error ("Failed to find document in " ++ collectionName) ;;;
       throw e).

(** [limit] is the argument as passed; [0] is falsy and leaves the query
    without a limit. *)
Definition findMany (collectionName field value : string) (limit : nat)
  : M (list (string * Image.t)) :=
  try_catch
    (let lim := if (limit =? 0)%nat then None else Some limit in
     call ext (QueryGet collectionName field value lim) ;;;
     docs <- gets (fun w => firestore w collectionName) ;;
     let matching :=
       filter (fun d => Image.field_is field value (snd d)) docs in
     ret (match lim with
          | Some n => firstn n matching
          | None => matching
          end))
    (fun e =>
       logger error ("Failed to find documents in " ++ collectionName) ;;;
       throw e).

(** [where(field, '==', value).limit(1).get()]; [snapshot.docs[0]] when the
    snapshot is not empty. *)
Definition findOne (collectionName field value : string)
  : M (option (string * Image.t)) :=
  try_catch
    (call ext (QueryGet collectionName field value (Some 1)) ;;;
     docs <- gets (fun w => firestore w collectionName) ;;
     let snapshot :=
       firstn 1 (filter (fun d => Image.field_is field value (snd d)) docs) in
     match snapshot with
     | [] => ret None
     | doc :: _ => ret (Some doc)
     end)
    (fun e =>
       logger error ("Failed to find document in " ++ collectionName) ;;;
       throw e).
End Methods.
End GCPDatabaseService.

(* ================================================================= *)
(** * [GCPStorageService] *)

Module GCPStorageService.

Fixpoint assoc_set (k v : string) (l : list (string * string))
  : list (string * string) :=
  match l with
  | [] => [(k, v)]
  | (k', v') :: l' =>
      if k' =? k then (k, v) :: l' else (k', v') :: assoc_set k v l'
  end.

(** [{ ...base, ...extra }]. *)
Definition spread (base extra : list (string * string))
  : list (string * string) :=
  fold_left (fun acc kv => assoc_set (fst kv) (snd kv) acc) extra base.

(** The line terminators [.] does not match; characters are 8-bit here,
    so only line feed and carriage return arise. *)
Definition is_line_terminator (c : ascii) : bool :=
  let n := nat_of_ascii c in ((n =? 10) || (n =? 13))%nat.

Fixpoint no_line_terminator (s : string) : bool :=
  match s with
  | EmptyString => true
  | String c s' => negb (is_line_terminator c) && no_line_terminator s'
  end.

(** Splits at the first [';']: the characters before it, and the rest
    from it on ([None] when there is no [';']). *)
Fixpoint until_semicolon (s : string) : option (string * string) :=
  match s with
  | EmptyString => None
  | String c s' =>
      if (nat_of_ascii c =? 59)%nat then Some (EmptyString, s)
      else match until_semicolon s' with
           | Some (a, b) => Some (String c a, b)
           | None => None
           end
  end.

Fixpoint strip_prefix (p s : string) : option string :=
  match p, s with
  | EmptyString, _ => Some s
  | String a p', String b s' =>
      if Ascii.eqb a b then strip_prefix p' s' else None
  | String _ _, EmptyString => None
  end.

(** [base64Data.match(/^data:([^;]+);base64,(.+)$/)]: the two groups. *)
Definition match_data_url (base64Data : string) : option (string * string) :=
  match strip_prefix "data:" base64Data with
  | None => None
  | Some rest =>
      match until_semicolon rest with
      | None => None
      | Some (g1, rest') =>
          if (String.length g1 =? 0)%nat then None
          else match strip_prefix ";base64," rest' with
               | None => None
               | Some g2 =>
                   if (String.length g2 =? 0)%nat then None
                   else if no_line_terminator g2 then Some (g1, g2)
                   else None
               end
      end
  end.

Definition or_string (a b : string) : string :=
  if Js.truthy a then a else b.

(** The locals [mimeType] and [base64Content] of [uploadBase64Image] when
    the buffer is built. *)
Definition mime_and_content (base64Data : string) : string * string :=
  if Js.startsWith base64Data "data:" then
    match match_data_url base64Data with
    | Some (g1, g2) => (or_string g1 "image/png", or_string g2 EmptyString)
    | None => ("image/png", base64Data)
    end
  else ("image/png", base64Data).

Section Methods.
Variable cfg : Config.t.
Variable ext : External.

(** [fileMetadata.size] is the size the bucket reports for the object just
    saved: the length of the buffer. *)
Definition uploadFile (buffer : list Byte.byte)
           (fileName mimeType userId : string)
           (metadata : list (string * string)) : M UploadResult.t :=
  try_catch
    (let fileExtension := or_string (extname ext fileName) ".png" in
     u <- uuid ext ;;
     let uniqueFileName := u ++ fileExtension in
     let filePath := "users/" ++ userId ++ "/images/" ++ uniqueFileName in
     now <- Date_now ;;
     let file :=
       mkGcsFile mimeType buffer
         (spread [("userId", userId); ("uploadedAt", toISOString ext now)]
                 metadata)
         true in
     call ext (FileSave filePath file) ;;;
     modify (put_file filePath file) ;;;
     call ext (FileMakePublic filePath) ;;;
     call ext (FileGetMetadata filePath) ;;;
     let publicUrl := Config.publicUrlBase cfg ++ filePath in
     logger info "File uploaded to GCS" ;;;
     ret (UploadResult.mk publicUrl (Config.bucketName cfg) filePath
            (Z.of_nat (List.length buffer)) mimeType))
    (fun e =>
       logger error "Failed to upload file to GCS" ;;;
       throw (Js.Error "File upload failed")).

Definition uploadBase64Image (base64Data fileName userId : string)
           (metadata : list (string * string)) : M UploadResult.t :=
  try_catch
    (let mimeType := fst (mime_and_content base64Data) in
     let base64Content := snd (mime_and_content base64Data) in
     let buffer := Buffer.from_base64 base64Content in
     uploadFile buffer fileName mimeType userId metadata)
    (fun e =>
       logger error "Failed to upload Base64 image to GCS" ;;;
       throw (Js.Error "Base64 image upload failed")).

Definition getPublicUrl (filePath : string) : string :=
  Config.publicUrlBase cfg ++ filePath.
End Methods.
End GCPStorageService.

(* ================================================================= *)
(** * [ImageGenerationService] *)

Module ImageGenerationService.

(** The simulated Base64 data of the placeholder extraction. *)
Definition placeholderImage : string :=
  "iVBORw0KGgoAAAANSUhEUgAAAAEAAAABCAYAAAAfFcSJAAAADUlEQVR42mNk+M9QDwADhgGAWjR9awAAAABJRU5ErkJggg==".

(** [images.filter(img => createdAt(img) >= today)]; reading [toDate] of a
    missing [createdAt] throws. *)
Fixpoint filterToday (today : Z) (images : list (string * Image.t))
  : Outcome (list (string * Image.t)) :=
  match images with
  | [] => Ok []
  | img :: rest =>
      match Image.createdAt (snd img) with
      | None =>
          Throw (Js.Error
                   "Cannot read properties of undefined (reading 'toDate')")
      | Some createdAt =>
          match filterToday today rest with
          | Ok l => Ok (if (today <=? createdAt)%Z then img :: l else l)
          | Throw t => Throw t
          end
      end
  end.

Definition lift {A : Type} (o : Outcome A) : M A := fun w => (o, w).

(** The record of a completed attempt, as passed to [create]. *)
Definition completedRecord (userId prompt : string)
           (styleParams : option StyleParams.t) (up : UploadResult.t)
           (dimensions : Dimensions) (now : Z) : Image.t :=
  Image.mk userId prompt styleParams
    (Some (UploadResult.publicUrl up)) (Some (UploadResult.bucket up))
    (Some (UploadResult.path up)) (Some (UploadResult.size up))
    (Some (UploadResult.mimeType up)) (Some dimensions)
    completed None (Some now) None.

(** The record of a failed attempt, as passed to [create]. *)
Definition failedRecord (userId prompt : string)
           (styleParams : option StyleParams.t) (e : Js.Thrown) (now : Z)
  : Image.t :=
  Image.mk userId prompt styleParams None None None None None None
    failed (Some (Js.message_of e)) (Some now) None.

Section Methods.
Variable cfg : Config.t.
Variable ext : External.

Definition buildEnhancedPrompt (basePrompt : string)
           (styleParams : option StyleParams.t) : M string :=
  logger info "Enhanced prompt built" ;;;
  ret (enhancedPrompt basePrompt styleParams).

(** The statements of the [try] block of [generateImage]. *)
Definition attempt (imageId userId prompt : string)
           (styleParams : option StyleParams.t)
  : M ImageGenerationResult.t :=
  logger info "Starting image generation" ;;;
  enhanced <- buildEnhancedPrompt prompt styleParams ;;
  response <- generateContent ext (Config.imageModel cfg) enhanced ;;
  imageBase64 <-
    match response with
    | Some (_ :: _) =>
        logger warn
          "Using placeholder image data extraction - update for production" ;;;
        ret placeholderImage
    | _ => throw (Js.Error "No image generated from Gemini API")
    end ;;
  uploadResult <-
    GCPStorageService.uploadBase64Image cfg ext imageBase64
      ("generated-" ++ imageId ++ ".png") userId
      [("prompt", Js.substring0 100 prompt); ("imageId", imageId)] ;;
  let requested := match styleParams with
                   | Some sp => StyleParams.dimensions sp
                   | None => None
                   end in
  let dimensions :=
    mkDimensions
      (Js.or_num (option_map width requested) (Config.defaultWidth cfg))
      (Js.or_num (option_map height requested) (Config.defaultHeight cfg)) in
  now <- Date_now ;;
  GCPDatabaseService.create ext (Config.imagesCollection cfg) imageId
    (completedRecord userId prompt styleParams uploadResult dimensions now) ;;;
  logger info "Image generation completed successfully" ;;;
  ret (ImageGenerationResult.mk imageId (UploadResult.publicUrl uploadResult)
         dimensions (UploadResult.size uploadResult) prompt styleParams).

(** The [catch] block of [generateImage]. *)
Definition recover (imageId userId prompt : string)
           (styleParams : option StyleParams.t) (e : Js.Thrown)
  : M ImageGenerationResult.t :=
  logger error "Image generation failed" ;;;
  try_catch
    (now <- Date_now ;;
     GCPDatabaseService.create ext (Config.imagesCollection cfg) imageId
       (failedRecord userId prompt styleParams e now))
    (fun dbError => logger error "Failed to save error record to database") ;;;
  throw (Js.Error "Image generation failed").

Definition generateImage (userId prompt : string)
           (styleParams : option StyleParams.t)
  : M ImageGenerationResult.t :=
  imageId <- uuid ext ;;
  try_catch (attempt imageId userId prompt styleParams)
            (recover imageId userId prompt styleParams).

Definition hasReachedDailyLimit (userId : string) : M bool :=
  try_catch
    (now <- Date_now ;;
     let today := startOfDay ext now in
     images <-
       GCPDatabaseService.findMany ext (Config.imagesCollection cfg)
         "userId" userId (Config.maxImagesPerUserPerDay cfg + 1) ;;
     todayImages <- lift (filterToday today images) ;;
     let hasReached :=
       (Config.maxImagesPerUserPerDay cfg <=? List.length todayImages)%nat in
     logger info "Checked daily generation limit" ;;;
     ret hasReached)
    (fun e =>
       logger error "Failed to check daily limit" ;;;
       ret false).

(** [limit] is the argument as passed (the default of 50 applies to a call
    without it). *)
Definition getUserImageHistory (userId : string) (limit : nat)
  : M (list (string * Image.t)) :=
  try_catch
    (images <-
       GCPDatabaseService.findMany ext (Config.imagesCollection cfg)
         "userId" userId limit ;;
     logger info "Retrieved user image history" ;;;
     ret images)
    (fun e =>
       logger error "Failed to retrieve user image history" ;;;
       throw (Js.Error "Failed to retrieve image history")).
End Methods.
End ImageGenerationService.

(* ================================================================= *)
(** * [controllers/imageController] *)

Module imageController.

Record Request : Type := mkRequest {
  user_id : option string;          (* req.user?.id *)
  body_prompt : string;             (* req.body.prompt *)
  body_styleParams : option StyleParams.t;
  params_imageId : string           (* req.params.imageId *)
}.

(** The argument of [res.json]. *)
Inductive Body : Type :=
| Failure (error : string)
| Generated (id gcsUrl prompt : string)
            (styleParams : option StyleParams.t) (dimensions : Dimensions)
            (createdAt : Z)
| Found (image : string * Image.t).

Record Response : Type := mkResponse {
  statusCode : nat;
  json : Body
}.

(** What [getImageHistory] reads of the request, and what it answers. *)
Record HistoryRequest : Type := mkHistoryRequest {
  history_user_id : option string;  (* req.user?.id *)
  query_limit : option nat          (* parseInt(req.query.limit) *)
}.

Inductive HistoryBody : Type :=
| HistoryFailure (error : string)
| Images (images : list (string * Image.t)) (count : nat).

Record HistoryResponse : Type := mkHistoryResponse {
  historyStatus : nat;
  historyJson : HistoryBody
}.

Section Handlers.
Variable cfg : Config.t.
Variable ext : External.

Definition generateImage (req : Request) : M Response :=
  try_catch
    (match user_id req with
     | None => ret (mkResponse 401 (Failure "User not authenticated"))
     | Some userId =>
         if negb (Js.truthy userId)
         then ret (mkResponse 401 (Failure "User not authenticated"))
         else
           let prompt := body_prompt req in
           let styleParams := body_styleParams req in
           logger info "Image generation request received" ;;;
           if negb (Js.truthy prompt) || Js.trim_is_empty prompt
           then ret (mkResponse 400 (Failure "Prompt is required"))
           else
             hasReachedLimit <-
               ImageGenerationService.hasReachedDailyLimit cfg ext userId ;;
             if (hasReachedLimit : bool)
             then
               logger warn "User reached daily generation limit" ;;;
               ret (mkResponse 429
                      (Failure
                         "Daily image generation limit reached. Please try again tomorrow."))
             else
               result <-
                 ImageGenerationService.generateImage cfg ext userId prompt
                   styleParams ;;
               logger info "Image generated successfully" ;;;
               now <- Date_now ;;
               ret (mkResponse 201
                      (Generated
                         (ImageGenerationResult.imageId result)
                         (ImageGenerationResult.imageUrl result)
                         (ImageGenerationResult.prompt result)
                         (ImageGenerationResult.styleParams result)
                         (ImageGenerationResult.dimensions result)
                         now))
     end)
    (fun e =>
       logger error "Image generation failed" ;;;
       ret (mkResponse 500
              (Failure "Image generation failed. Please try again."))).

Definition getImageById (req : Request) : M Response :=
  try_catch
    (let imageId := params_imageId req in
     match user_id req with
     | None => ret (mkResponse 401 (Failure "User not authenticated"))
     | Some userId =>
         if negb (Js.truthy userId)
         then ret (mkResponse 401 (Failure "User not authenticated"))
         else
           image <- GCPDatabaseService.findById ext "images" imageId ;;
           match image with
           | None => ret (mkResponse 404 (Failure "Image not found"))
           | Some img =>
               if negb (Image.userId (snd img) =? userId)
               then
                 ret (mkResponse 403
                        (Failure
                           "Forbidden. You do not have access to this image."))
               else
                 logger info "Image retrieved" ;;;
                 ret (mkResponse 200 (Found img))
           end
     end)
    (fun e =>
       logger error "Failed to retrieve image" ;;;
       ret (mkResponse 500 (Failure "Failed to retrieve image"))).

(** [parseInt(req.query.limit) || 50], for a parameter that parses to a
    natural number ([Some n]) or to [NaN] ([None]); a negative limit is
    outside this model. *)
Definition historyLimit (parsed : option nat) : nat :=
  match parsed with
  | Some n => if (n =? 0)%nat then 50 else n
  | None => 50
  end.

Definition getImageHistory (req : HistoryRequest) : M HistoryResponse :=
  try_catch
    (match history_user_id req with
     | None => ret (mkHistoryResponse 401
                      (HistoryFailure "User not authenticated"))
     | Some userId =>
         if negb (Js.truthy userId)
         then ret (mkHistoryResponse 401
                     (HistoryFailure "User not authenticated"))
         else
           let limit := historyLimit (query_limit req) in
           images <-
             ImageGenerationService.getUserImageHistory cfg ext userId limit ;;
           logger info "Image history retrieved" ;;;
           ret (mkHistoryResponse 200 (Images images (List.length images)))
     end)
    (fun e =>
       logger error "Failed to retrieve image history" ;;;
       ret (mkHistoryResponse 500
              (HistoryFailure "Failed to retrieve image history"))).
End Handlers.
End imageController.

(* ================================================================= *)
(** * Observing a run *)

(** The external calls made between two worlds of one run. *)
Definition new_calls (w w' : World) : list Call :=
  skipn (List.length (trace w)) (trace w').

(** The document writes among some calls: collection, id and data. *)
Fixpoint doc_writes (cs : list Call) : list (string * string * Image.t) :=
  match cs with
  | [] => []
  | DocSet coll id d :: cs' => (coll, id, d) :: doc_writes cs'
  | _ :: cs' => doc_writes cs'
  end.

(** The objects saved among some calls: content type and bytes. *)
Fixpoint saved (cs : list Call) : list (string * list Byte.byte) :=
  match cs with
  | [] => []
  | FileSave _ f :: cs' => (contentType f, content f) :: saved cs'
  | _ :: cs' => saved cs'
  end.

(** The objects saved among some calls: path and object. *)
Fixpoint savedFiles (cs : list Call) : list (string * GcsFile) :=
  match cs with
  | [] => []
  | FileSave p f :: cs' => (p, f) :: savedFiles cs'
  | _ :: cs' => savedFiles cs'
  end.

(** No [';'] in the string: what [[^;]+] can match entirely. *)
Fixpoint no_semicolon (s : string) : bool :=
  match s with
  | EmptyString => true
  | String c s' => negb (nat_of_ascii c =? 59)%nat && no_semicolon s'
  end.

(** The last line of the log. *)
Definition lastLine (w : World) : Level * string :=
  last (log w) (info, EmptyString).

(** Calls to the generative model or to the bucket. *)
Definition generation_or_storage (c : Call) : bool :=
  match c with
  | GenerateContent _ _ | FileSave _ _ | FileMakePublic _
  | FileGetMetadata _ => true
  | DocSet _ _ _ | DocGet _ _ | QueryGet _ _ _ _ => false
  end.

(** Created on or after [today]. *)
Definition since (today : Z) (d : string * Image.t) : bool :=
  match Image.createdAt (snd d) with
  | Some t => (today <=? t)%Z
  | None => false
  end.

(** The records of a user created on or after [today]. *)
Definition createdSince (today : Z) (userId : string) (c : Collection)
  : Collection :=
  filter (fun d => (Image.userId (snd d) =? userId) && since today d) c.

(* ================================================================= *)
(** * The values of one attempt

    What [generateImage userId prompt styleParams] computes when it starts
    in a world: the attempt id, the calls it makes and their faults. *)

Module Attempt.
(** The arguments of the call and the world it starts in. *)
Record t : Type := start {
  cfg : Config.t;
  ext : External;
  userId : string;
  prompt : string;
  styleParams : option StyleParams.t;
  world : World
}.

Section Values.
Variable a : t.
Abbreviation cfg := (cfg a).
Abbreviation ext := (ext a).
Abbreviation userId := (userId a).
Abbreviation prompt := (prompt a).
Abbreviation styleParams := (styleParams a).
Abbreviation w := (world a).

(** The call itself: its outcome and the world it ends in. *)
Definition run : Outcome ImageGenerationResult.t * World :=
  ImageGenerationService.generateImage cfg ext userId prompt styleParams w.

(** The id drawn by the first statement of [generateImage]. *)
Definition imageId : string := uuidv4 ext (uuids w).

Definition collection : string := Config.imagesCollection cfg.

Definition sentPrompt : string := enhancedPrompt prompt styleParams.

Definition generationCall : Call :=
  GenerateContent (Config.imageModel cfg) sentPrompt.

Definition fileName : string := "generated-" ++ imageId ++ ".png".

Definition filePath : string :=
  "users/" ++ userId ++ "/images/" ++
  (uuidv4 ext (S (uuids w)) ++
   GCPStorageService.or_string (extname ext fileName) ".png").

Definition file : GcsFile :=
  mkGcsFile "image/png"
    (Buffer.from_base64 ImageGenerationService.placeholderImage)
    (GCPStorageService.spread
       [("userId", userId); ("uploadedAt", toISOString ext (clock w))]
       [("prompt", Js.substring0 100 prompt); ("imageId", imageId)])
    true.

Definition generationFault : option Js.Thrown :=
  fault ext (calls w) generationCall.

Definition response : option (list string) :=
  candidates ext (calls w) sentPrompt.

Definition saveFault : option Js.Thrown :=
  fault ext (1 + calls w) (FileSave filePath file).

Definition makePublicFault : option Js.Thrown :=
  fault ext (2 + calls w) (FileMakePublic filePath).

Definition getMetadataFault : option Js.Thrown :=
  fault ext (3 + calls w) (FileGetMetadata filePath).

(** The generation call answers with a candidate. *)
Definition generated : bool :=
  match generationFault, response with
  | None, Some (_ :: _) => true
  | _, _ => false
  end.

(** The three calls of the upload go through. *)
Definition uploaded : bool :=
  match saveFault, makePublicFault, getMetadataFault with
  | None, None, None => true
  | _, _, _ => false
  end.

(** The error that reaches the [catch] block of [generateImage] when the
    generation or the upload fails. *)
Definition primaryError : Js.Thrown :=
  match generationFault with
  | Some t => t
  | None =>
      match response with
      | Some (_ :: _) => Js.Error "Base64 image upload failed"
      | _ => Js.Error "No image generated from Gemini API"
      end
  end.

(** The failure record of an error, as stored. *)
Definition failureRecord (e : Js.Thrown) : Image.t :=
  Image.stamp (clock w)
    (ImageGenerationService.failedRecord userId prompt styleParams e
       (clock w)).

Definition uploadResult : UploadResult.t :=
  UploadResult.mk (Config.publicUrlBase cfg ++ filePath)
    (Config.bucketName cfg) filePath
    (Z.of_nat (List.length (content file))) "image/png".

Definition dimensions : Dimensions :=
  let requested := match styleParams with
                   | Some sp => StyleParams.dimensions sp
                   | None => None
                   end in
  mkDimensions
    (Js.or_num (option_map width requested) (Config.defaultWidth cfg))
    (Js.or_num (option_map height requested) (Config.defaultHeight cfg)).

(** The record of the completed attempt, as stored. *)
Definition successRecord : Image.t :=
  Image.stamp (clock w)
    (ImageGenerationService.completedRecord userId prompt styleParams
       uploadResult dimensions (clock w)).

(** The fault of the success-path save. *)
Definition recordFault : option Js.Thrown :=
  fault ext (4 + calls w) (DocSet collection imageId successRecord).

Definition result : ImageGenerationResult.t :=
  ImageGenerationResult.mk imageId (UploadResult.publicUrl uploadResult)
    dimensions (UploadResult.size uploadResult) prompt styleParams.

(** The worlds the attempt goes through, one per external call. *)
Definition afterGeneration : World :=
  add_call generationCall
    (add_log info "Enhanced prompt built"
       (add_log info "Starting image generation" (next_uuid w))).

Definition afterSave : World :=
  add_call (FileSave filePath file)
    (next_uuid
       (add_log warn
          "Using placeholder image data extraction - update for production"
          afterGeneration)).

Definition afterMakePublic : World :=
  add_call (FileMakePublic filePath) (put_file filePath file afterSave).

Definition afterGetMetadata : World :=
  add_call (FileGetMetadata filePath) afterMakePublic.

Definition afterRecord : World :=
  add_call (DocSet collection imageId successRecord)
    (add_log info "File uploaded to GCS" afterGetMetadata).

(** The world when both [catch] blocks of the upload have logged. *)
Definition uploadFailed (w1 : World) : World :=
  add_log error "Failed to upload Base64 image to GCS"
    (add_log error "Failed to upload file to GCS" w1).

(** The world when the [catch] block of [create] has logged. *)
Definition recordFailed : World :=
  add_log error ("Failed to create document in " ++ collection) afterRecord.

(** The world a completed attempt ends in. *)
Definition done : World :=
  add_log info "Image generation completed successfully"
    (add_log info ("Document created in " ++ collection)
       (set_firestore collection imageId successRecord afterRecord)).

(** The write of the failure record for error [e]. *)
Definition failureWrite (e : Js.Thrown) : Call :=
  DocSet collection imageId (failureRecord e).

(** The world the [catch] block of [generateImage] ends in, entered in
    world [w1] with error [e]. *)
Definition recovered (e : Js.Thrown) (w1 : World) : World :=
  let w2 := add_call (failureWrite e)
              (add_log error "Image generation failed" w1) in
  match fault ext (calls w1) (failureWrite e) with
  | None =>
      add_log info ("Document created in " ++ collection)
        (set_firestore collection imageId (failureRecord e) w2)
  | Some _ =>
      add_log error "Failed to save error record to database"
        (add_log error ("Failed to create document in " ++ collection) w2)
  end.
End Values.
End Attempt.

(** * The values of one upload

    What [uploadBase64Image base64Data fileName userId metadata] computes
    when it starts in a world. *)

Module Upload.
(** The arguments of the call and the world it starts in. *)
Record t : Type := start {
  cfg : Config.t;
  ext : External;
  base64Data : string;
  fileName : string;
  userId : string;
  metadata : list (string * string);
  world : World
}.

Section Values.
Variable u : t.
Abbreviation cfg := (cfg u).
Abbreviation ext := (ext u).
Abbreviation base64Data := (base64Data u).
Abbreviation fileName := (fileName u).
Abbreviation userId := (userId u).
Abbreviation metadata := (metadata u).
Abbreviation w := (world u).

(** The call itself: its outcome and the world it ends in. *)
Definition run : Outcome UploadResult.t * World :=
  GCPStorageService.uploadBase64Image cfg ext base64Data fileName userId
    metadata w.

Definition filePath : string :=
  "users/" ++ userId ++ "/images/" ++
  (uuidv4 ext (uuids w) ++
   GCPStorageService.or_string (extname ext fileName) ".png").

Definition file : GcsFile :=
  mkGcsFile (fst (GCPStorageService.mime_and_content base64Data))
    (Buffer.from_base64 (snd (GCPStorageService.mime_and_content base64Data)))
    (GCPStorageService.spread
       [("userId", userId); ("uploadedAt", toISOString ext (clock w))]
       metadata)
    true.

Definition afterSave : World :=
  add_call (FileSave filePath file) (next_uuid w).

Definition afterMakePublic : World :=
  add_call (FileMakePublic filePath) (put_file filePath file afterSave).

Definition afterGetMetadata : World :=
  add_call (FileGetMetadata filePath) afterMakePublic.

Definition failed (w1 : World) : Outcome UploadResult.t * World :=
  (Throw (Js.Error "Base64 image upload failed"),
   add_log error "Failed to upload Base64 image to GCS"
     (add_log error "Failed to upload file to GCS" w1)).
End Values.
End Upload.

(* ================================================================= *)
(** * The clause list of the prompt composer *)

(** The clause of an optional field: none when the field is missing or
    holds the empty string. *)
Definition clause (phrase : string -> string) (field : option string)
  : list string :=
  match field with
  | Some v => if v =? EmptyString then [] else [phrase v]
  | None => []
  end.

(** The clauses in their fixed order: style, colour scheme, mood, then the
    free-form modifiers as they are. *)
Definition clauseList (sp : StyleParams.t) : list string :=
  clause (fun s => "in " ++ s ++ " style") (StyleParams.style sp)
  ++ clause (fun c => "with " ++ c ++ " color scheme")
       (StyleParams.colorScheme sp)
  ++ clause (fun m => m ++ " mood") (StyleParams.mood sp)
  ++ match StyleParams.modifiers sp with
     | Some ms => ms
     | None => []
     end.

(** The specification's wording, to compare with: a clause for every field
    that is set, whatever it holds. *)
Module Worded.
Definition clause (phrase : string -> string) (field : option string)
  : list string :=
  match field with
  | Some v => [phrase v]
  | None => []
  end.

Definition clauseList (sp : StyleParams.t) : list string :=
  clause (fun s => "in " ++ s ++ " style") (StyleParams.style sp)
  ++ clause (fun c => "with " ++ c ++ " color scheme")
       (StyleParams.colorScheme sp)
  ++ clause (fun m => m ++ " mood") (StyleParams.mood sp)
  ++ match StyleParams.modifiers sp with
     | Some ms => ms
     | None => []
     end.

Definition is_set {A : Type} (field : option A) : bool :=
  match field with
  | Some _ => true
  | None => false
  end.

(** At least one of the four style fields is set. *)
Definition anySet (sp : StyleParams.t) : bool :=
  is_set (StyleParams.style sp) || is_set (StyleParams.colorScheme sp)
  || is_set (StyleParams.mood sp) || is_set (StyleParams.modifiers sp).

Definition Build (basePrompt : string) (sp : StyleParams.t) : string :=
  if anySet sp then basePrompt ++ ", " ++ Js.join ", " (clauseList sp)
  else basePrompt.
End Worded.

(** The error responses of the [generateImage] handler. *)
Definition failureResponses : list imageController.Response :=
  [ imageController.mkResponse 401
      (imageController.Failure "User not authenticated");
    imageController.mkResponse 400
      (imageController.Failure "Prompt is required");
    imageController.mkResponse 429
      (imageController.Failure
         "Daily image generation limit reached. Please try again tomorrow.");
    imageController.mkResponse 500
      (imageController.Failure "Image generation failed. Please try again.") ].

(* ================================================================= *)
(** * Sample services, worlds and requests *)

Module Fixtures.

(** Two images a day, to keep the examples small. *)
Definition cfg : Config.t :=
  Config.mk "images" "pixology-images"
    "https://storage.googleapis.com/pixology-images/"
    "gemini-2.5-flash-image-preview" 2 1024 1024.

Definition msPerDay : Z := 86400000.

Definition utcMidnight (t : Z) : Z := (t - t mod msPerDay)%Z.

Definition digit (n : nat) : string :=
  String (ascii_of_nat (48 + n mod 10)) EmptyString.

Fixpoint lastDot (s : string) : string :=
  match s with
  | EmptyString => EmptyString
  | String c s' =>
      match lastDot s' with
      | EmptyString => if (nat_of_ascii c =? 46)%nat then s else EmptyString
      | ext => ext
      end
  end.

Definition platform (faults : nat -> Call -> option Js.Thrown)
           (reply : option (list string)) : External :=
  mkExternal (fun n => "uuid-" ++ digit n) faults (fun _ _ => reply)
    lastDot utcMidnight (fun _ => "2025-06-02T10:00:00.000Z").

(** Every service answers. *)
Definition healthy : External :=
  platform (fun _ _ => None) (Some ["candidate"]).

(** The model call throws, with a detailed upstream message. *)
Definition modelDown : External :=
  platform
    (fun _ c =>
       match c with
       | GenerateContent _ _ =>
           Some (Js.Error "503 from generativelanguage.googleapis.com")
       | _ => None
       end)
    None.

(** The model answers without candidates. *)
Definition modelEmpty : External := platform (fun _ _ => None) (Some []).

(** The bucket rejects the save. *)
Definition bucketDown : External :=
  platform
    (fun _ c =>
       match c with
       | FileSave _ _ => Some (Js.Error "ECONNRESET storage.googleapis.com")
       | _ => None
       end)
    (Some ["candidate"]).

(** The model call throws and Firestore is down as well. *)
Definition modelAndFirestoreDown : External :=
  platform
    (fun _ c =>
       match c with
       | GenerateContent _ _ =>
           Some (Js.Error "503 from generativelanguage.googleapis.com")
       | DocSet _ _ _ | DocGet _ _ | QueryGet _ _ _ _ =>
           Some (Js.Error "14 UNAVAILABLE: firestore")
       | _ => None
       end)
    None.

(** Firestore is down. *)
Definition firestoreDown : External :=
  platform
    (fun _ c =>
       match c with
       | DocSet _ _ _ | DocGet _ _ | QueryGet _ _ _ _ =>
           Some (Js.Error "14 UNAVAILABLE: firestore")
       | _ => None
       end)
    (Some ["candidate"]).

(** Firestore rejects the first document write it sees and accepts the
    next ones: the fifth external call of an attempt is the success-path
    save. *)
Definition firstWriteFails : External :=
  platform
    (fun n c =>
       match c with
       | DocSet _ _ _ =>
           if (n =? 4)%nat then Some (Js.Error "4 DEADLINE_EXCEEDED")
           else None
       | _ => None
       end)
    (Some ["candidate"]).

(** 2 June 2025, 10:00 UTC. *)
Definition now : Z := 1748858400000.

Definition yesterday : Z := (now - msPerDay)%Z.

Definition world (images : Collection) : World :=
  mkWorld (fun c => if c =? "images" then images else []) [] [] [] 0 0 now.

Definition emptyWorld : World := world [].

Definition record (userId : string) (createdAt : Z) : Image.t :=
  Image.mk userId "sunset" None (Some "https://example/x.png")
    (Some "pixology-images") (Some "users/x.png") (Some 70%Z)
    (Some "image/png") (Some (mkDimensions 1024 1024)) completed None
    (Some createdAt) (Some createdAt).

(** Alice made three images yesterday and two today; the ids of
    yesterday's come first in the order of document ids. *)
Definition crowded : World :=
  world [ ("a1", record "alice" yesterday);
          ("a2", record "alice" yesterday);
          ("a3", record "alice" yesterday);
          ("b1", record "alice" now);
          ("b2", record "alice" now) ].

(** Alice made two images today and none before. *)
Definition atLimit : World :=
  world [ ("b1", record "alice" now); ("b2", record "alice" now) ].

(** Alice made one image today. *)
Definition belowLimit : World :=
  world [ ("b1", record "alice" now) ].

Definition sunset (ext : External) (w : World) : Attempt.t :=
  Attempt.start cfg ext "alice" "sunset" None w.

Definition request (userId : string) (imageId : string)
  : imageController.Request :=
  imageController.mkRequest (Some userId) "sunset" None imageId.

(** A style object whose only field is an empty style. *)
Definition emptyStyle : StyleParams.t :=
  StyleParams.mk (Some EmptyString) None None None None None.

(** A style object that only asks for a quality and a size. *)
Definition sizeOnly : StyleParams.t :=
  StyleParams.mk None None None None (Some (mkDimensions 512 512))
    (Some high).

Definition realisticCalm : StyleParams.t :=
  StyleParams.mk (Some "realistic") None (Some "calm") None None None.

Definition jpegUpload (w : World) : Upload.t :=
  Upload.start cfg healthy "data:image/jpeg;base64,AAAA" "cat.jpg" "alice"
    [] w.

Definition rawUpload (w : World) : Upload.t :=
  Upload.start cfg healthy "AAAA" "cat.png" "alice" [] w.

(** A style object that asks for a width of 0 and a height of 512. *)
Definition zeroWidth : StyleParams.t :=
  StyleParams.mk None None None None (Some (mkDimensions 0 512)) None.

Definition zeroWidthAttempt : Attempt.t :=
  Attempt.start cfg healthy "alice" "sunset" (Some zeroWidth) emptyWorld.

(** The bucket accepts the object and then fails to make it public. *)
Definition makePublicFails : External :=
  platform
    (fun _ c =>
       match c with
       | FileMakePublic _ => Some (Js.Error "403 storage.objects.setIamPolicy")
       | _ => None
       end)
    (Some ["candidate"]).

(** An upload whose object is saved but not made public. *)
Definition halfUpload : Upload.t :=
  Upload.start cfg makePublicFails "AAAA" "cat.png" "alice" [] emptyWorld.

(** What the upload of ["AAAA"] returns in the empty world. *)
Definition rawResult : UploadResult.t :=
  UploadResult.mk
    "https://storage.googleapis.com/pixology-images/users/alice/images/uuid-0.png"
    "pixology-images" "users/alice/images/uuid-0.png" 3 "image/png".

Definition historyRequest (userId : string) (limit : option nat)
  : imageController.HistoryRequest :=
  imageController.mkHistoryRequest (Some userId) limit.
End Fixtures.

(* ================================================================= *)
(** * The values of one quota check

    What [hasReachedDailyLimit userId] reads when it starts in world [w]. *)

Module Quota.
Section Values.
Variable cfg : Config.t.
Variable ext : External.
Variable userId : string.
Variable w : World.

Definition limit : nat := Config.maxImagesPerUserPerDay cfg.

Definition query : Call :=
  QueryGet (Config.imagesCollection cfg) "userId" userId (Some (limit + 1)).

(** The records of the user, in the order of their ids. *)
Definition history : Collection :=
  filter (fun d => Image.field_is "userId" userId (snd d))
         (firestore w (Config.imagesCollection cfg)).

(** The records the query returns: the first [limit + 1] of them. *)
Definition fetched : Collection := firstn (limit + 1) history.

Definition today : Z := startOfDay ext (clock w).

(** The records of the user created today, all of them. *)
Definition createdToday : Collection :=
  createdSince today userId (firestore w (Config.imagesCollection cfg)).

(** The call itself. *)
Definition run : Outcome bool * World :=
  ImageGenerationService.hasReachedDailyLimit cfg ext userId w.
End Values.
End Quota.

(* ================================================================= *)
(** * Strings and lists *)

Lemma prefix_append (s t : string) : String.prefix s (s ++ t) = true.
Proof.
  induction s as [|c s IH]; cbn.
  - now destruct t.
  - destruct (ascii_dec c c) as [_|ne]; [exact IH | now elim ne].
Qed.

Lemma prefix_refl (s : string) : String.prefix s s = true.
Proof.
  induction s as [|c s IH]; cbn; [reflexivity|].
  destruct (ascii_dec c c) as [_|ne]; [exact IH | now elim ne].
Qed.

Lemma skipn_past (A : Type) (l made : list A) :
  skipn (List.length l) (l ++ made)%list = made.
Proof. induction l; cbn; auto. Qed.

Lemma lookup_doc_set (id : string) (d : Image.t) (c : Collection) :
  lookup id (doc_set id d c) = Some d.
Proof.
  induction c as [|[id' d'] c IH]; cbn.
  - now rewrite String.eqb_refl.
  - destruct (String.compare id id') eqn:E; cbn.
    + now rewrite String.eqb_refl.
    + now rewrite String.eqb_refl.
    + destruct (String.eqb_spec id' id) as [->|_]; [|exact IH].
      pose proof (String.compare_antisym id id) as H.
      rewrite E in H. discriminate H.
Qed.

Lemma lookup_doc_set_other (id id' : string) (d : Image.t) (c : Collection) :
  id' <> id -> lookup id' (doc_set id d c) = lookup id' c.
Proof.
  intros ne.
  induction c as [|[k v] c IH]; cbn.
  - destruct (String.eqb_spec id id'); [congruence | reflexivity].
  - destruct (String.compare id k) eqn:E; cbn.
    + apply String.compare_eq_iff in E. subst k.
      destruct (String.eqb_spec id id'); [congruence | reflexivity].
    + destruct (String.eqb_spec id id'); [congruence | reflexivity].
    + destruct (String.eqb_spec k id'); [reflexivity | exact IH].
Qed.

(* ================================================================= *)
(** * The prompt composer *)

Lemma styleModifiers_clauseList (sp : StyleParams.t) :
  styleModifiers sp = clauseList sp.
Proof.
  unfold styleModifiers, clauseList, clause, Js.truthy.
  destruct sp as [[s|] [c|] [m|] [ms|] dims q]; cbn;
    repeat match goal with
           | |- context [(?x =? EmptyString)%string] =>
               destruct (x =? EmptyString)%string
           end; cbn;
    try reflexivity; destruct ms; reflexivity.
Qed.

Lemma enhancedPrompt_clauses (basePrompt : string) (sp : StyleParams.t) :
  enhancedPrompt basePrompt (Some sp) =
  match clauseList sp with
  | [] => basePrompt
  | _ :: _ => basePrompt ++ ", " ++ Js.join ", " (clauseList sp)
  end.
Proof.
  unfold enhancedPrompt. rewrite styleModifiers_clauseList.
  now destruct (clauseList sp).
Qed.

Lemma buildEnhancedPrompt_run (basePrompt : string)
      (styleParams : option StyleParams.t) (w : World) :
  ImageGenerationService.buildEnhancedPrompt basePrompt styleParams w =
  (Ok (enhancedPrompt basePrompt styleParams),
   add_log info "Enhanced prompt built" w).
Proof. reflexivity. Qed.

(** C3, as the code has it: the output starts with the base prompt, and
    when the clause list is not empty the output is the base prompt, then
    [", "], then the clauses joined by [", "]; the clauses are, in this
    order, "in {style} style", "with {colorScheme} color scheme",
    "{mood} mood" and the modifiers as they are, where a field that is
    missing or holds the empty string gives no clause. *)
Theorem buildEnhancedPrompt_fixed_order
        (basePrompt : string) (styleParams : option StyleParams.t)
        (w : World) :
  exists out,
    fst (ImageGenerationService.buildEnhancedPrompt basePrompt styleParams w)
    = Ok out /\
    String.prefix basePrompt out = true /\
    out = match styleParams with
          | None => basePrompt
          | Some sp =>
              match clauseList sp with
              | [] => basePrompt
              | _ :: _ => basePrompt ++ ", " ++ Js.join ", " (clauseList sp)
              end
          end.
Proof.
  rewrite buildEnhancedPrompt_run. cbn [fst].
  eexists. split; [reflexivity|].
  destruct styleParams as [sp|].
  - rewrite enhancedPrompt_clauses.
    destruct (clauseList sp); split;
      auto using prefix_refl, prefix_append.
  - split; [apply prefix_refl | reflexivity].
Qed.

(** C3 as worded fails on a style object whose style is the empty string:
    a field is set, yet the output is the bare base prompt and not the base
    prompt followed by the clause list. *)
Lemma empty_style_adds_no_clause :
  Worded.anySet Fixtures.emptyStyle = true /\
  fst (ImageGenerationService.buildEnhancedPrompt "a cat"
         (Some Fixtures.emptyStyle) Fixtures.emptyWorld)
  = Ok "a cat" /\
  Worded.Build "a cat" Fixtures.emptyStyle = "a cat, in  style" /\
  fst (ImageGenerationService.buildEnhancedPrompt "a cat"
         (Some Fixtures.emptyStyle) Fixtures.emptyWorld)
  <> Ok (Worded.Build "a cat" Fixtures.emptyStyle).
Proof. repeat split; try reflexivity. discriminate. Qed.

Example realistic_calm_cat :
  enhancedPrompt "a cat" (Some Fixtures.realisticCalm)
  = "a cat, in realistic style, calm mood".
Proof. reflexivity. Qed.

(** C8: without style parameters, with the empty style object, and whenever
    the clause list built from the style parameters is empty, the composer
    returns the base prompt unchanged. *)
Theorem buildEnhancedPrompt_unchanged
        (p : string) (sp : StyleParams.t) (w : World) :
  styleModifiers sp = [] ->
  fst (ImageGenerationService.buildEnhancedPrompt p None w) = Ok p /\
  fst (ImageGenerationService.buildEnhancedPrompt p (Some StyleParams.empty) w)
  = Ok p /\
  fst (ImageGenerationService.buildEnhancedPrompt p (Some sp) w) = Ok p.
Proof.
  intros H. rewrite !buildEnhancedPrompt_run. cbn [fst].
  repeat split. unfold enhancedPrompt. now rewrite H.
Qed.

Lemma buildEnhancedPrompt_unchanged_witness :
  styleModifiers Fixtures.sizeOnly = [] /\
  fst (ImageGenerationService.buildEnhancedPrompt "sunset"
         (Some Fixtures.sizeOnly) Fixtures.emptyWorld) = Ok "sunset".
Proof.
  split; [reflexivity|].
  apply (buildEnhancedPrompt_unchanged "sunset" Fixtures.sizeOnly
           Fixtures.emptyWorld).
  reflexivity.
Defined.

(** Every individual field absent: the clause list is empty. *)
Lemma styleModifiers_absent (dims : option Dimensions) (q : option Quality) :
  styleModifiers (StyleParams.mk None None None None dims q) = [].
Proof. reflexivity. Qed.

(* ================================================================= *)
(** * Running the methods *)

#[local] Arguments String.append : simpl never.
#[local] Arguments Buffer.from_base64 : simpl never.
#[local] Arguments GCPStorageService.mime_and_content : simpl never.
#[local] Arguments GCPStorageService.spread : simpl never.
#[local] Arguments GCPStorageService.or_string : simpl never.
#[local] Arguments enhancedPrompt : simpl never.
#[local] Arguments Js.substring0 : simpl never.
#[local] Arguments ImageGenerationService.placeholderImage : simpl never.

(** Unfolds the monad and computes. *)
Ltac run :=
  repeat (progress
    (unfold bind, try_catch, ret, throw, gets, modify, logger, Date_now,
            call, uuid, generateContent, ImageGenerationService.lift;
     cbn)).

Ltac upload_defs :=
  unfold Upload.run, Upload.failed, Upload.afterGetMetadata,
    Upload.afterMakePublic, Upload.afterSave, Upload.file, Upload.filePath
    in *.

Ltac attempt_values :=
  unfold Attempt.generated, Attempt.uploaded,
    Attempt.generationFault, Attempt.response, Attempt.saveFault,
    Attempt.makePublicFault, Attempt.getMetadataFault, Attempt.recordFault,
    Attempt.primaryError, Attempt.failureWrite,
    Attempt.done, Attempt.recordFailed, Attempt.uploadFailed,
    Attempt.afterRecord, Attempt.afterGetMetadata, Attempt.afterMakePublic,
    Attempt.afterSave, Attempt.afterGeneration, Attempt.result,
    Attempt.generationCall, Attempt.sentPrompt, Attempt.successRecord,
    Attempt.failureRecord, Attempt.uploadResult, Attempt.dimensions,
    Attempt.filePath, Attempt.file, Attempt.fileName, Attempt.collection,
    Attempt.imageId in *.

Ltac attempt_defs :=
  unfold Attempt.run, Attempt.generated, Attempt.uploaded,
    Attempt.generationFault, Attempt.response, Attempt.saveFault,
    Attempt.makePublicFault, Attempt.getMetadataFault, Attempt.recordFault,
    Attempt.primaryError, Attempt.recovered, Attempt.failureWrite,
    Attempt.done, Attempt.recordFailed, Attempt.uploadFailed,
    Attempt.afterRecord, Attempt.afterGetMetadata, Attempt.afterMakePublic,
    Attempt.afterSave, Attempt.afterGeneration, Attempt.result,
    Attempt.generationCall, Attempt.sentPrompt, Attempt.successRecord,
    Attempt.failureRecord, Attempt.uploadResult, Attempt.dimensions,
    Attempt.filePath, Attempt.file, Attempt.fileName, Attempt.collection,
    Attempt.imageId in *.

(** The calls a run has added to the trace. *)
Ltac made :=
  unfold new_calls; cbn; rewrite <- ?app_assoc; rewrite skipn_past; cbn.

Lemma create_run (ext : External) (coll id : string) (data : Image.t)
      (w : World) :
  GCPDatabaseService.create ext coll id data w =
  let doc := Image.stamp (clock w) data in
  match fault ext (calls w) (DocSet coll id doc) with
  | None =>
      (Ok tt,
       add_log info ("Document created in " ++ coll)
         (set_firestore coll id doc (add_call (DocSet coll id doc) w)))
  | Some t =>
      (Throw t,
       add_log error ("Failed to create document in " ++ coll)
         (add_call (DocSet coll id doc) w))
  end.
Proof.
  unfold GCPDatabaseService.create. run.
  destruct (fault ext (calls w) _); reflexivity.
Qed.

Lemma findById_run (ext : External) (coll id : string) (w : World) :
  GCPDatabaseService.findById ext coll id w =
  match fault ext (calls w) (DocGet coll id) with
  | None =>
      (Ok (option_map (pair id) (lookup id (firestore w coll))),
       add_call (DocGet coll id) w)
  | Some t =>
      (Throw t,
       add_log error ("Failed to find document in " ++ coll)
         (add_call (DocGet coll id) w))
  end.
Proof.
  unfold GCPDatabaseService.findById. run.
  destruct (fault ext (calls w) _); [reflexivity|].
  cbn. destruct (lookup id _); reflexivity.
Qed.

Lemma findMany_run (ext : External) (coll field value : string) (limit : nat)
      (w : World) :
  GCPDatabaseService.findMany ext coll field value (limit + 1) w =
  let q := QueryGet coll field value (Some (limit + 1)) in
  match fault ext (calls w) q with
  | None =>
      (Ok (firstn (limit + 1)
             (filter (fun d => Image.field_is field value (snd d))
                     (firestore w coll))),
       add_call q w)
  | Some t =>
      (Throw t,
       add_log error ("Failed to find documents in " ++ coll) (add_call q w))
  end.
Proof.
  unfold GCPDatabaseService.findMany.
  replace (limit + 1 =? 0)%nat with false
    by (symmetry; apply Nat.eqb_neq; lia).
  run. destruct (fault ext (calls w) _); reflexivity.
Qed.

Lemma uploadBase64Image_run (u : Upload.t) :
  let ext := Upload.ext u in
  let n := calls (Upload.world u) in
  let path := Upload.filePath u in
  let file := Upload.file u in
  Upload.run u =
  match fault ext n (FileSave path file) with
  | Some _ => Upload.failed (Upload.afterSave u)
  | None =>
      match fault ext (1 + n) (FileMakePublic path) with
      | Some _ => Upload.failed (Upload.afterMakePublic u)
      | None =>
          match fault ext (2 + n) (FileGetMetadata path) with
          | Some _ => Upload.failed (Upload.afterGetMetadata u)
          | None =>
              (Ok (UploadResult.mk
                     (Config.publicUrlBase (Upload.cfg u) ++ path)
                     (Config.bucketName (Upload.cfg u)) path
                     (Z.of_nat (List.length (content file)))
                     (contentType file)),
               add_log info "File uploaded to GCS"
                 (Upload.afterGetMetadata u))
          end
      end
  end.
Proof.
  destruct u as [cfg ext d f uid m w]. cbn.
  upload_defs.
  unfold GCPStorageService.uploadBase64Image, GCPStorageService.uploadFile.
  run.
  destruct (fault ext (calls w) _); [reflexivity|]. cbn.
  destruct (fault ext (S (calls w)) _); [reflexivity|]. cbn.
  destruct (fault ext (S (S (calls w))) _); reflexivity.
Qed.

(** Whatever the bucket answers, the upload saves one object: the decoded
    content under the extracted MIME type. *)
Lemma upload_saves (u : Upload.t) :
  saved (new_calls (Upload.world u) (snd (Upload.run u))) =
  [(fst (GCPStorageService.mime_and_content (Upload.base64Data u)),
    Buffer.from_base64
      (snd (GCPStorageService.mime_and_content (Upload.base64Data u))))].
Proof.
  rewrite uploadBase64Image_run.
  destruct u as [cfg ext d f uid m w]. upload_defs. cbn.
  destruct (fault ext (calls w) _); [now made|].
  destruct (fault ext (S (calls w)) _); [now made|].
  destruct (fault ext (S (S (calls w))) _); now made.
Qed.

Lemma upload_result (u : Upload.t) (r : UploadResult.t) :
  fst (Upload.run u) = Ok r ->
  UploadResult.mimeType r =
    fst (GCPStorageService.mime_and_content (Upload.base64Data u)) /\
  UploadResult.size r =
    Z.of_nat (List.length
                (Buffer.from_base64
                   (snd (GCPStorageService.mime_and_content
                           (Upload.base64Data u))))).
Proof.
  rewrite uploadBase64Image_run.
  destruct u as [cfg ext d f uid m w]. upload_defs. cbn.
  destruct (fault ext (calls w) _); [discriminate|].
  destruct (fault ext (S (calls w)) _); [discriminate|].
  destruct (fault ext (S (S (calls w))) _); [discriminate|].
  cbn. intros [= <-]. now split.
Qed.

Lemma raw_base64_content (s : string) :
  Js.startsWith s "data:" = false ->
  GCPStorageService.mime_and_content s = ("image/png", s).
Proof.
  intros H. unfold GCPStorageService.mime_and_content. now rewrite H.
Qed.

Example AAAA_bytes :
  Buffer.from_base64 "AAAA" = [Byte.x00; Byte.x00; Byte.x00].
Proof. reflexivity. Qed.

Example hello_bytes :
  Buffer.from_base64 "aGVsbG8=" =
  [Byte.x68; Byte.x65; Byte.x6c; Byte.x6c; Byte.x6f].
Proof. reflexivity. Qed.

(** C7: for ["data:image/jpeg;base64,AAAA"] the upload saves the base64
    decoding of ["AAAA"] under the MIME type [image/jpeg]; for every input
    without the ["data:"] prefix it saves the base64 decoding of the whole
    string under [image/png]. A successful upload reports that MIME type. *)
Theorem uploadBase64Image_data_url (u : Upload.t) :
  let objects := saved (new_calls (Upload.world u) (snd (Upload.run u))) in
  let reported mime :=
    forall r, fst (Upload.run u) = Ok r -> UploadResult.mimeType r = mime in
  (Upload.base64Data u = "data:image/jpeg;base64,AAAA" ->
   objects = [("image/jpeg", Buffer.from_base64 "AAAA")] /\
   reported "image/jpeg") /\
  (Js.startsWith (Upload.base64Data u) "data:" = false ->
   objects = [("image/png", Buffer.from_base64 (Upload.base64Data u))] /\
   reported "image/png").
Proof.
  cbn zeta. split; intros H.
  - split.
    + rewrite upload_saves, H. reflexivity.
    + intros r Hr. apply upload_result in Hr as [-> _]. now rewrite H.
  - split.
    + rewrite upload_saves, (raw_base64_content _ H). reflexivity.
    + intros r Hr. apply upload_result in Hr as [-> _].
      now rewrite (raw_base64_content _ H).
Qed.

Lemma uploadBase64Image_data_url_witness :
  (saved (new_calls Fixtures.emptyWorld
            (snd (Upload.run (Fixtures.jpegUpload Fixtures.emptyWorld))))
   = [("image/jpeg", [Byte.x00; Byte.x00; Byte.x00])]) /\
  (saved (new_calls Fixtures.emptyWorld
            (snd (Upload.run (Fixtures.rawUpload Fixtures.emptyWorld))))
   = [("image/png", [Byte.x00; Byte.x00; Byte.x00])]).
Proof.
  split.
  - apply (proj1 (uploadBase64Image_data_url
                    (Fixtures.jpegUpload Fixtures.emptyWorld))).
    reflexivity.
  - apply (proj2 (uploadBase64Image_data_url
                    (Fixtures.rawUpload Fixtures.emptyWorld))).
    reflexivity.
Defined.

(* ================================================================= *)
(** * The generation pipeline *)

#[local] Arguments GCPStorageService.uploadBase64Image : simpl never.
#[local] Arguments GCPDatabaseService.create : simpl never.

(** The [catch] block always throws the one generic error; whether the
    failure record is stored only shows in the world it ends in. *)
Lemma recover_run (a : Attempt.t) (w1 : World) (e : Js.Thrown) :
  clock w1 = clock (Attempt.world a) ->
  ImageGenerationService.recover (Attempt.cfg a) (Attempt.ext a)
    (Attempt.imageId a) (Attempt.userId a) (Attempt.prompt a)
    (Attempt.styleParams a) e w1 =
  (Throw (Js.Error "Image generation failed"), Attempt.recovered a e w1).
Proof.
  intros Hc.
  unfold ImageGenerationService.recover. attempt_defs.
  run. rewrite create_run. cbn. rewrite Hc.
  destruct (fault _ (calls w1) _); reflexivity.
Qed.

Lemma placeholder_content :
  GCPStorageService.mime_and_content ImageGenerationService.placeholderImage
  = ("image/png", ImageGenerationService.placeholderImage).
Proof. reflexivity. Qed.

#[local] Arguments ImageGenerationService.recover : simpl never.
#[local] Arguments Attempt.recovered : simpl never.

(** [generateImage], call by call. *)
Lemma generateImage_run (a : Attempt.t) :
  let failing e w1 :=
    (@Throw ImageGenerationResult.t (Js.Error "Image generation failed"),
     Attempt.recovered a e w1) in
  let uploadError := Js.Error "Base64 image upload failed" in
  Attempt.run a =
  match Attempt.generationFault a with
  | Some t => failing t (Attempt.afterGeneration a)
  | None =>
      match Attempt.response a with
      | Some (_ :: _) =>
          match Attempt.saveFault a with
          | Some _ =>
              failing uploadError (Attempt.uploadFailed (Attempt.afterSave a))
          | None =>
            match Attempt.makePublicFault a with
            | Some _ =>
                failing uploadError
                  (Attempt.uploadFailed (Attempt.afterMakePublic a))
            | None =>
              match Attempt.getMetadataFault a with
              | Some _ =>
                  failing uploadError
                    (Attempt.uploadFailed (Attempt.afterGetMetadata a))
              | None =>
                match Attempt.recordFault a with
                | Some t => failing t (Attempt.recordFailed a)
                | None => (Ok (Attempt.result a), Attempt.done a)
                end
              end
            end
          end
      | _ =>
          failing (Js.Error "No image generated from Gemini API")
            (Attempt.afterGeneration a)
      end
  end.
Proof.
  intros failing uploadError. subst failing uploadError.
  pose proof (recover_run a) as R.
  destruct a as [cfg ext userId prompt sp w].
  unfold Attempt.run, ImageGenerationService.generateImage,
    ImageGenerationService.attempt,
    ImageGenerationService.buildEnhancedPrompt.
  attempt_values. run.
  destruct (fault ext (calls w) _); [apply R; reflexivity|].
  destruct (candidates ext (calls w) _) as [[|c cs]|];
    [apply R; reflexivity| |apply R; reflexivity].
  run.
  change (GCPStorageService.uploadBase64Image cfg ext ?d ?f ?u ?m ?w0)
    with (Upload.run (Upload.start cfg ext d f u m w0)).
  rewrite uploadBase64Image_run.
  upload_defs. cbn.
  rewrite placeholder_content. cbn.
  destruct (fault ext (S (calls w)) _); [apply R; reflexivity|].
  destruct (fault ext (S (S (calls w))) _); [apply R; reflexivity|].
  destruct (fault ext (S (S (S (calls w)))) _); [apply R; reflexivity|].
  rewrite create_run. cbn.
  destruct (fault ext (S (S (S (S (calls w))))) _); cbn;
    [apply R; reflexivity|].
  reflexivity.
Qed.

(** The state the [catch] block leaves, entered with error [e] in world
    [w1] of the attempt: the write of the failure record is the last call
    made; stored, the record is found under the attempt id; rejected, the
    collections are as they were and the rejection is the last line of the
    log. *)
Lemma recovered_spec (a : Attempt.t) (e : Js.Thrown) (w1 : World) :
  let w' := Attempt.recovered a e w1 in
  trace w' = (trace w1 ++ [Attempt.failureWrite a e])%list /\
  calls w' = S (calls w1) /\
  gcs w' = gcs w1 /\
  match fault (Attempt.ext a) (calls w1) (Attempt.failureWrite a e) with
  | None =>
      lookup (Attempt.imageId a) (firestore w' (Attempt.collection a))
      = Some (Attempt.failureRecord a e) /\
      (forall coll id,
          (coll, id) <> (Attempt.collection a, Attempt.imageId a) ->
          lookup id (firestore w' coll) = lookup id (firestore w1 coll))
  | Some _ =>
      firestore w' = firestore w1 /\
      lastLine w'
      = (error, "Failed to save error record to database")
  end.
Proof.
  unfold Attempt.recovered.
  destruct (fault _ (calls w1) _); cbn -[doc_set lookup].
  - repeat split. apply last_last.
  - repeat split.
    + rewrite String.eqb_refl. apply lookup_doc_set.
    + intros coll id ne.
      destruct (String.eqb_spec coll (Attempt.collection a)) as [->|_];
        [|reflexivity].
      apply lookup_doc_set_other. congruence.
Qed.

(** A failing attempt whose [try] block wrote no document and left the
    collections alone: the run writes exactly the failure record. *)
Lemma failing_attempt (a : Attempt.t) (e : Js.Thrown) (w1 : World)
      (stage : list Call) :
  trace w1 = (trace (Attempt.world a) ++ stage)%list ->
  doc_writes stage = [] ->
  firestore w1 = firestore (Attempt.world a) ->
  let w' := Attempt.recovered a e w1 in
  doc_writes (new_calls (Attempt.world a) w')
  = [(Attempt.collection a, Attempt.imageId a, Attempt.failureRecord a e)] /\
  match fault (Attempt.ext a) (pred (calls w')) (Attempt.failureWrite a e) with
  | None =>
      lookup (Attempt.imageId a) (firestore w' (Attempt.collection a))
      = Some (Attempt.failureRecord a e)
  | Some _ =>
      firestore w' = firestore (Attempt.world a) /\
      lastLine w'
      = (error, "Failed to save error record to database")
  end.
Proof.
  intros Htrace Hstage Hstore w'.
  destruct (recovered_spec a e w1) as (Ht & Hc & _ & H). fold w' in Ht, Hc, H.
  split.
  - unfold new_calls. rewrite Ht, Htrace, <- app_assoc, skipn_past.
    clear -Hstage. induction stage as [|c stage IH]; [reflexivity|].
    destruct c; cbn in *; try discriminate; auto.
  - rewrite Hc. cbn [pred].
    destruct (fault _ (calls w1) _); [|tauto].
    destruct H as [-> H]. now split.
Qed.

(** C1: when the generation call or the upload fails, the caller gets the
    generic failure whether or not the compensating write goes through; the
    run writes exactly one document, the failure record, under the id drawn
    at the start of the attempt, with status [failed] and the message of the
    primary error. That write is the last external call of the run: if it
    is rejected, nothing is stored and the rejection is the last line of the
    log; otherwise the record is found under the attempt id. *)
Theorem generateImage_records_failure (a : Attempt.t) :
  Attempt.generated a && Attempt.uploaded a = false ->
  let e := Attempt.primaryError a in
  let w' := snd (Attempt.run a) in
  fst (Attempt.run a) = Throw (Js.Error "Image generation failed") /\
  doc_writes (new_calls (Attempt.world a) w')
  = [(Attempt.collection a, Attempt.imageId a, Attempt.failureRecord a e)] /\
  Image.status (Attempt.failureRecord a e) = failed /\
  Image.errorMessage (Attempt.failureRecord a e) = Some (Js.message_of e) /\
  match fault (Attempt.ext a) (pred (calls w')) (Attempt.failureWrite a e) with
  | None =>
      lookup (Attempt.imageId a) (firestore w' (Attempt.collection a))
      = Some (Attempt.failureRecord a e)
  | Some _ =>
      firestore w' = firestore (Attempt.world a) /\
      lastLine w'
      = (error, "Failed to save error record to database")
  end.
Proof.
  intros H e w'. subst e w'.
  rewrite generateImage_run.
  unfold Attempt.generated, Attempt.uploaded, Attempt.primaryError in *.
  assert (stage_trace :
            forall e w1 stage,
              trace w1 = (trace (Attempt.world a) ++ stage)%list ->
              doc_writes stage = [] ->
              firestore w1 = firestore (Attempt.world a) ->
              let r := (@Throw ImageGenerationResult.t
                          (Js.Error "Image generation failed"),
                        Attempt.recovered a e w1) in
              fst r = Throw (Js.Error "Image generation failed") /\
              doc_writes (new_calls (Attempt.world a) (snd r))
              = [(Attempt.collection a, Attempt.imageId a,
                  Attempt.failureRecord a e)] /\
              Image.status (Attempt.failureRecord a e) = failed /\
              Image.errorMessage (Attempt.failureRecord a e)
              = Some (Js.message_of e) /\
              match fault (Attempt.ext a) (pred (calls (snd r)))
                      (Attempt.failureWrite a e) with
              | None =>
                  lookup (Attempt.imageId a)
                         (firestore (snd r) (Attempt.collection a))
                  = Some (Attempt.failureRecord a e)
              | Some _ =>
                  firestore (snd r) = firestore (Attempt.world a) /\
                  lastLine (snd r)
                  = (error, "Failed to save error record to database")
              end).
  { intros e w1 stage H1 H2 H3 r. subst r. cbn [fst snd].
    destruct (@failing_attempt a e w1 stage H1 H2 H3) as [Hw Hf].
    repeat split; assumption. }
  destruct (Attempt.generationFault a) as [t|].
  { apply (stage_trace t _ [Attempt.generationCall a]); reflexivity. }
  destruct (Attempt.response a) as [[|c cs]|].
  - apply (stage_trace _ _ [Attempt.generationCall a]); reflexivity.
  - destruct (Attempt.saveFault a).
    { apply (stage_trace _ _ [Attempt.generationCall a;
                              FileSave (Attempt.filePath a) (Attempt.file a)]);
        try reflexivity.
      cbn. now rewrite <- app_assoc. }
    destruct (Attempt.makePublicFault a).
    { apply (stage_trace _ _ [Attempt.generationCall a;
                              FileSave (Attempt.filePath a) (Attempt.file a);
                              FileMakePublic (Attempt.filePath a)]);
        try reflexivity.
      cbn. now rewrite <- !app_assoc. }
    destruct (Attempt.getMetadataFault a).
    { apply (stage_trace _ _ [Attempt.generationCall a;
                              FileSave (Attempt.filePath a) (Attempt.file a);
                              FileMakePublic (Attempt.filePath a);
                              FileGetMetadata (Attempt.filePath a)]);
        try reflexivity.
      cbn. now rewrite <- !app_assoc. }
    discriminate H.
  - apply (stage_trace _ _ [Attempt.generationCall a]); reflexivity.
Qed.

Lemma generateImage_records_failure_witness :
  Attempt.generated (Fixtures.sunset Fixtures.modelDown Fixtures.emptyWorld)
  && Attempt.uploaded (Fixtures.sunset Fixtures.modelDown Fixtures.emptyWorld)
  = false /\
  fst (Attempt.run (Fixtures.sunset Fixtures.modelDown Fixtures.emptyWorld))
  = Throw (Js.Error "Image generation failed").
Proof.
  split; [reflexivity|].
  apply (generateImage_records_failure
           (Fixtures.sunset Fixtures.modelDown Fixtures.emptyWorld)).
  reflexivity.
Defined.

(** The model is down and so is Firestore: the caller gets the same generic
    failure, nothing is stored, and the last log line reports the rejected
    failure record. *)
Example secondary_fault_is_swallowed :
  let r := Attempt.run
             (Fixtures.sunset Fixtures.modelAndFirestoreDown
                Fixtures.emptyWorld) in
  fst r = Throw (Js.Error "Image generation failed") /\
  firestore (snd r) "images" = [] /\
  lastLine (snd r)
  = (error, "Failed to save error record to database").
Proof. repeat split. Qed.

(** C2, as the code has it: when generation and upload succeed and the
    success-path save is rejected, the caller gets the generic failure and
    the artifact stays in the bucket; the [catch] block then writes the
    failure record under the attempt id. If that write goes through, the
    attempt id holds a [failed] record that carries neither the URL nor the
    path of the artifact; if it is rejected, the collections are as before.
    No other document changes. *)
Theorem final_save_failure_orphans_artifact (a : Attempt.t) (t : Js.Thrown) :
  Attempt.generated a = true ->
  Attempt.uploaded a = true ->
  Attempt.recordFault a = Some t ->
  let w := Attempt.world a in
  let w' := snd (Attempt.run a) in
  let record := Attempt.failureRecord a t in
  fst (Attempt.run a) = Throw (Js.Error "Image generation failed") /\
  lookup (Attempt.filePath a) (gcs w') = Some (Attempt.file a) /\
  Image.status record = failed /\
  Image.gcsUrl record = None /\ Image.gcsPath record = None /\
  match fault (Attempt.ext a) (pred (calls w')) (Attempt.failureWrite a t) with
  | None =>
      lookup (Attempt.imageId a) (firestore w' (Attempt.collection a))
      = Some record /\
      forall coll id,
        (coll, id) <> (Attempt.collection a, Attempt.imageId a) ->
        lookup id (firestore w' coll) = lookup id (firestore w coll)
  | Some _ => firestore w' = firestore w
  end.
Proof.
  intros G U R w w' record. subst w w' record.
  rewrite generateImage_run.
  unfold Attempt.generated, Attempt.uploaded in *.
  destruct (Attempt.generationFault a); [discriminate|].
  destruct (Attempt.response a) as [[|c cs]|]; try discriminate.
  destruct (Attempt.saveFault a); [discriminate|].
  destruct (Attempt.makePublicFault a); [discriminate|].
  destruct (Attempt.getMetadataFault a); [discriminate|].
  rewrite R. cbn [fst snd].
  destruct (recovered_spec a t (Attempt.recordFailed a)) as (_ & Hc & Hg & H).
  rewrite Hc, Hg. cbn [pred].
  repeat split.
  - cbn. now rewrite String.eqb_refl.
  - destruct (fault _ (calls (Attempt.recordFailed a)) _).
    + now destruct H as [-> _].
    + exact H.
Qed.

Lemma final_save_failure_orphans_artifact_witness :
  Attempt.recordFault (Fixtures.sunset Fixtures.firstWriteFails
                         Fixtures.emptyWorld)
  = Some (Js.Error "4 DEADLINE_EXCEEDED") /\
  fst (Attempt.run (Fixtures.sunset Fixtures.firstWriteFails
                      Fixtures.emptyWorld))
  = Throw (Js.Error "Image generation failed").
Proof.
  split; [reflexivity|].
  apply (final_save_failure_orphans_artifact
           (Fixtures.sunset Fixtures.firstWriteFails Fixtures.emptyWorld)
           (Js.Error "4 DEADLINE_EXCEEDED")); reflexivity.
Defined.

(** C2 as worded fails when the compensating write goes through: the
    success-path save was rejected, the artifact is in the bucket, and the
    attempt id does hold a record. *)
Lemma orphaned_artifact_has_a_record :
  Attempt.generated (Fixtures.sunset Fixtures.firstWriteFails
                       Fixtures.emptyWorld) = true /\
  Attempt.uploaded (Fixtures.sunset Fixtures.firstWriteFails
                      Fixtures.emptyWorld) = true /\
  Attempt.recordFault (Fixtures.sunset Fixtures.firstWriteFails
                         Fixtures.emptyWorld)
  = Some (Js.Error "4 DEADLINE_EXCEEDED") /\
  fst (Attempt.run (Fixtures.sunset Fixtures.firstWriteFails
                      Fixtures.emptyWorld))
  = Throw (Js.Error "Image generation failed") /\
  List.length (gcs (snd (Attempt.run (Fixtures.sunset Fixtures.firstWriteFails
                                        Fixtures.emptyWorld)))) = 1%nat /\
  option_map Image.status
    (lookup "uuid-0"
       (firestore (snd (Attempt.run (Fixtures.sunset Fixtures.firstWriteFails
                                       Fixtures.emptyWorld))) "images"))
  = Some failed /\
  lookup "uuid-0"
    (firestore (snd (Attempt.run (Fixtures.sunset Fixtures.firstWriteFails
                                    Fixtures.emptyWorld))) "images")
  <> None.
Proof. repeat split. discriminate. Qed.

(* ================================================================= *)
(** * The quota gate *)

#[local] Arguments GCPDatabaseService.findMany : simpl never.

Lemma hasReachedDailyLimit_run (cfg : Config.t) (ext : External)
      (userId : string) (w : World) :
  let q := Quota.query cfg userId in
  let w1 := add_call q w in
  Quota.run cfg ext userId w =
  match fault ext (calls w) q with
  | Some _ =>
      (Ok false,
       add_log error "Failed to check daily limit"
         (add_log error
            ("Failed to find documents in " ++ Config.imagesCollection cfg)
            w1))
  | None =>
      match ImageGenerationService.filterToday (Quota.today ext w)
              (Quota.fetched cfg userId w) with
      | Ok todayImages =>
          (Ok (Quota.limit cfg <=? List.length todayImages)%nat,
           add_log info "Checked daily generation limit" w1)
      | Throw _ => (Ok false, add_log error "Failed to check daily limit" w1)
      end
  end.
Proof.
  unfold Quota.run, Quota.query, Quota.today, Quota.fetched, Quota.history,
    Quota.limit, ImageGenerationService.hasReachedDailyLimit.
  run. rewrite findMany_run. cbn.
  destruct (fault ext (calls w) _); [reflexivity|]. run.
  destruct (ImageGenerationService.filterToday _ _); reflexivity.
Qed.

(** Created on or after [today]. *)
Lemma filterToday_ok (today : Z) (images kept : list (string * Image.t)) :
  ImageGenerationService.filterToday today images = Ok kept ->
  kept = filter (since today) images.
Proof.
  revert kept.
  induction images as [|img rest IH]; cbn; intros kept H.
  - now injection H as <-.
  - unfold since at 1.
    destruct (Image.createdAt (snd img)) as [t|]; [|discriminate].
    destruct (ImageGenerationService.filterToday today rest) as [l|];
      [|discriminate].
    injection H as <-. rewrite (IH l eq_refl).
    now destruct (today <=? t)%Z.
Qed.

Lemma filterToday_total (today : Z) (images : list (string * Image.t)) :
  Forall (fun d => Image.createdAt (snd d) <> None) images ->
  ImageGenerationService.filterToday today images
  = Ok (filter (since today) images).
Proof.
  induction 1 as [|img rest Himg _ IH]; cbn; [reflexivity|].
  unfold since at 1.
  destruct (Image.createdAt (snd img)) as [t|]; [|congruence].
  rewrite IH. now destruct (today <=? t)%Z.
Qed.

Lemma filter_firstn_length (A : Type) (p : A -> bool) (n : nat) (l : list A) :
  (List.length (filter p (firstn n l)) <= List.length (filter p l))%nat.
Proof.
  revert n. induction l as [|x l IH]; intros [|n]; cbn; try lia.
  specialize (IH n). destruct (p x); cbn; lia.
Qed.

Lemma field_is_userId (userId : string) (d : Image.t) :
  Image.field_is "userId" userId d = (Image.userId d =? userId).
Proof. reflexivity. Qed.

Lemma createdToday_history (cfg : Config.t) (ext : External)
      (userId : string) (w : World) :
  filter (since (Quota.today ext w)) (Quota.history cfg userId w)
  = Quota.createdToday cfg ext userId w.
Proof.
  unfold Quota.history, Quota.createdToday, createdSince.
  induction (firestore w (Config.imagesCollection cfg)) as [|d l IH];
    [reflexivity|].
  cbn [filter]. rewrite field_is_userId.
  destruct (Image.userId (snd d) =? userId); cbn [andb filter];
    [|exact IH].
  rewrite IH. reflexivity.
Qed.

(** The gate never counts more than the user made today. *)
Lemma hasReachedDailyLimit_below (cfg : Config.t) (ext : External)
      (userId : string) (w : World) :
  (List.length (Quota.createdToday cfg ext userId w) < Quota.limit cfg)%nat ->
  fst (Quota.run cfg ext userId w) = Ok false.
Proof.
  intros H. rewrite hasReachedDailyLimit_run. cbn zeta.
  destruct (fault ext (calls w) _); [reflexivity|].
  destruct (ImageGenerationService.filterToday _ _) as [kept|] eqn:E;
    [|reflexivity].
  apply filterToday_ok in E. subst kept. cbn [fst]. f_equal.
  apply Nat.leb_gt. unfold Quota.fetched.
  eapply Nat.le_lt_trans; [apply filter_firstn_length|].
  now rewrite createdToday_history.
Qed.

(** When the whole history of the user fits in the fetched window, the gate
    compares the number of today's records with the limit. *)
Lemma hasReachedDailyLimit_short_history (cfg : Config.t) (ext : External)
      (userId : string) (w : World) :
  fault ext (calls w) (Quota.query cfg userId) = None ->
  (List.length (Quota.history cfg userId w) <= Quota.limit cfg + 1)%nat ->
  Forall (fun d => Image.createdAt (snd d) <> None)
         (Quota.history cfg userId w) ->
  fst (Quota.run cfg ext userId w)
  = Ok (Quota.limit cfg
        <=? List.length (Quota.createdToday cfg ext userId w))%nat.
Proof.
  intros F L S. rewrite hasReachedDailyLimit_run. cbn zeta. rewrite F.
  unfold Quota.fetched. rewrite firstn_all2 by exact L.
  rewrite (@filterToday_total _ _ S). cbn [fst].
  now rewrite createdToday_history.
Qed.

(** C4 at its failing input: Alice has made exactly [limit] images today,
    and three more the day before whose ids sort first; the three fetched
    records are yesterday's, and the gate answers "not reached". *)
Theorem hasReachedDailyLimit_crowded_window :
  List.length (Quota.createdToday Fixtures.cfg Fixtures.healthy "alice"
                 Fixtures.crowded)
  = Quota.limit Fixtures.cfg /\
  map fst (Quota.fetched Fixtures.cfg "alice" Fixtures.crowded)
  = ["a1"; "a2"; "a3"] /\
  Quota.run Fixtures.cfg Fixtures.healthy "alice" Fixtures.crowded
  = (Ok false,
     add_log info "Checked daily generation limit"
       (add_call (Quota.query Fixtures.cfg "alice") Fixtures.crowded)).
Proof. repeat split. Qed.

Example hasReachedDailyLimit_at_limit :
  fst (Quota.run Fixtures.cfg Fixtures.healthy "alice" Fixtures.atLimit)
  = Ok true.
Proof. reflexivity. Qed.

Example hasReachedDailyLimit_below_limit :
  fst (Quota.run Fixtures.cfg Fixtures.healthy "alice" Fixtures.belowLimit)
  = Ok false.
Proof. reflexivity. Qed.

(** C6: when the read of the record store fails, the gate catches the
    error, logs it and answers "not reached"; it writes nothing. *)
Theorem hasReachedDailyLimit_fails_open (cfg : Config.t) (ext : External)
        (userId : string) (w : World) (t : Js.Thrown) :
  fault ext (calls w) (Quota.query cfg userId) = Some t ->
  let r := Quota.run cfg ext userId w in
  fst r = Ok false /\
  firestore (snd r) = firestore w /\
  lastLine (snd r) = (error, "Failed to check daily limit").
Proof.
  intros F r. subst r. rewrite hasReachedDailyLimit_run. cbn zeta.
  rewrite F. cbn. repeat split. apply last_last.
Qed.

Lemma hasReachedDailyLimit_fails_open_witness :
  fault Fixtures.firestoreDown (calls Fixtures.atLimit)
    (Quota.query Fixtures.cfg "alice")
  = Some (Js.Error "14 UNAVAILABLE: firestore") /\
  fst (Quota.run Fixtures.cfg Fixtures.firestoreDown "alice" Fixtures.atLimit)
  = Ok false.
Proof.
  split; [reflexivity|].
  apply (hasReachedDailyLimit_fails_open Fixtures.cfg Fixtures.firestoreDown
           "alice" Fixtures.atLimit (Js.Error "14 UNAVAILABLE: firestore")).
  reflexivity.
Defined.

(* ================================================================= *)
(** * The handlers *)

#[local] Arguments ImageGenerationService.hasReachedDailyLimit : simpl never.
#[local] Arguments ImageGenerationService.generateImage : simpl never.
#[local] Arguments GCPDatabaseService.findById : simpl never.

(** C5 at its failing input: Alice has made exactly [limit] images today,
    and three more the day before whose ids sort first. The gate answers
    "not reached" (C4), so her next request is not rejected: the handler
    answers 201 after calls to the model and to the bucket, one document is
    written, a [completed] record under a new id, and the collection holds
    one record more than before, [limit + 1] of them made today. *)
Theorem generateImage_over_limit_served :
  let w := Fixtures.crowded in
  let r := imageController.generateImage Fixtures.cfg Fixtures.healthy
             (Fixtures.request "alice" EmptyString) w in
  List.length (Quota.createdToday Fixtures.cfg Fixtures.healthy "alice" w)
  = Quota.limit Fixtures.cfg /\
  option_map imageController.statusCode
    (match fst r with Ok resp => Some resp | Throw _ => None end)
  = Some 201%nat /\
  In (GenerateContent (Config.imageModel Fixtures.cfg) "sunset")
     (new_calls w (snd r)) /\
  List.length (filter generation_or_storage (new_calls w (snd r))) = 4%nat /\
  map (fun d => (fst d, Image.status (snd d)))
      (doc_writes (new_calls w (snd r)))
  = [("images", "uuid-0", completed)] /\
  List.length (firestore (snd r) "images")
  = S (List.length (firestore w "images")) /\
  List.length (Quota.createdToday Fixtures.cfg Fixtures.healthy "alice"
                 (snd r))
  = S (Quota.limit Fixtures.cfg).
Proof. vm_compute. repeat split. right. now left. Qed.

(** X23: a request that the gate reports at the limit is answered with 429
    and the quota message; the only external call made is the gate's
    query, so no call goes to the model or to the bucket, no document is
    written, no attempt id is drawn, and the collections and the bucket are
    as before. *)
Theorem generateImage_quota_exceeded (cfg : Config.t) (ext : External)
        (req : imageController.Request) (userId : string) (w : World) :
  imageController.user_id req = Some userId ->
  Js.truthy userId = true ->
  negb (Js.truthy (imageController.body_prompt req))
  || Js.trim_is_empty (imageController.body_prompt req) = false ->
  fst (Quota.run cfg ext userId w) = Ok true ->
  let r := imageController.generateImage cfg ext req w in
  fst r
  = Ok (imageController.mkResponse 429
          (imageController.Failure
             "Daily image generation limit reached. Please try again tomorrow."))
  /\ new_calls w (snd r) = [Quota.query cfg userId]
  /\ filter generation_or_storage (new_calls w (snd r)) = []
  /\ doc_writes (new_calls w (snd r)) = []
  /\ firestore (snd r) = firestore w
  /\ gcs (snd r) = gcs w
  /\ uuids (snd r) = uuids w.
Proof.
  intros Hu Ht Hp Hq r. subst r.
  unfold imageController.generateImage.
  rewrite Hu. run. rewrite Ht. cbn. run. rewrite Hp. run.
  change (ImageGenerationService.hasReachedDailyLimit cfg ext userId ?w0)
    with (Quota.run cfg ext userId w0).
  rewrite hasReachedDailyLimit_run in Hq |- *. cbn in Hq |- *.
  unfold Quota.today, Quota.fetched, Quota.history in *. cbn in Hq |- *.
  destruct (fault ext (calls w) _); [discriminate|].
  destruct (ImageGenerationService.filterToday _ _); [|discriminate].
  cbn in Hq |- *. injection Hq as ->. cbn.
  repeat split; now made.
Qed.

Lemma generateImage_quota_exceeded_witness :
  imageController.statusCode
    (match fst (imageController.generateImage Fixtures.cfg Fixtures.healthy
                  (Fixtures.request "alice" EmptyString) Fixtures.atLimit) with
     | Ok resp => resp
     | Throw _ =>
         imageController.mkResponse 500 (imageController.Failure EmptyString)
     end) = 429%nat.
Proof.
  rewrite (proj1 (generateImage_quota_exceeded Fixtures.cfg Fixtures.healthy
                    (Fixtures.request "alice" EmptyString) "alice"
                    Fixtures.atLimit eq_refl eq_refl eq_refl eq_refl)).
  reflexivity.
Defined.

(** The [catch] block of the service throws the generic error only. *)
Lemma generateImage_throws_generic (a : Attempt.t) (t : Js.Thrown) :
  fst (Attempt.run a) = Throw t -> t = Js.Error "Image generation failed".
Proof.
  rewrite generateImage_run. cbn zeta.
  repeat match goal with
         | |- context [match ?x with _ => _ end] => destruct x
         end; cbn; congruence.
Qed.

(** C9: whatever step fails and whatever the external service reported,
    the service throws the one error "Image generation failed", so two
    failing attempts throw the same value; and the handler always answers,
    with a failure body that is one of its four fixed ones. *)
Theorem failures_are_generic (a1 a2 : Attempt.t) (t1 t2 : Js.Thrown)
        (cfg : Config.t) (ext : External) (req : imageController.Request)
        (w : World) :
  fst (Attempt.run a1) = Throw t1 ->
  fst (Attempt.run a2) = Throw t2 ->
  t1 = Js.Error "Image generation failed" /\
  t2 = t1 /\
  exists resp,
    fst (imageController.generateImage cfg ext req w) = Ok resp /\
    forall msg, imageController.json resp = imageController.Failure msg ->
                In resp failureResponses.
Proof.
  intros H1 H2.
  apply generateImage_throws_generic in H1, H2. subst t1 t2.
  split; [reflexivity|]. split; [reflexivity|].
  unfold imageController.generateImage, failureResponses.
  destruct (imageController.user_id req) as [userId|];
    [|run; eexists; split; [reflexivity|]; cbn; auto].
  run.
  destruct (Js.truthy userId);
    [|run; eexists; split; [reflexivity|]; cbn; auto].
  run.
  destruct (negb (Js.truthy (imageController.body_prompt req))
            || Js.trim_is_empty (imageController.body_prompt req));
    [run; eexists; split; [reflexivity|]; cbn; auto|].
  run.
  destruct (ImageGenerationService.hasReachedDailyLimit cfg ext userId _)
    as [[[|]|t] w1];
    [run; eexists; split; [reflexivity|]; cbn; auto | |
     run; eexists; split; [reflexivity|]; cbn; auto 6].
  run.
  destruct (ImageGenerationService.generateImage cfg ext userId _ _ _)
    as [[r|t] w2]; run; eexists; (split; [reflexivity|]); cbn.
  - discriminate.
  - auto 6.
Qed.

Lemma failures_are_generic_witness :
  Attempt.primaryError (Fixtures.sunset Fixtures.modelDown Fixtures.emptyWorld)
  <> Attempt.primaryError
       (Fixtures.sunset Fixtures.bucketDown Fixtures.emptyWorld) /\
  fst (Attempt.run (Fixtures.sunset Fixtures.modelDown Fixtures.emptyWorld))
  = fst (Attempt.run (Fixtures.sunset Fixtures.bucketDown
                        Fixtures.emptyWorld)) /\
  Js.Error "Image generation failed" = Js.Error "Image generation failed".
Proof.
  split; [discriminate|]. split; [reflexivity|].
  apply (proj1 (proj2
    (failures_are_generic
       (Fixtures.sunset Fixtures.modelDown Fixtures.emptyWorld)
       (Fixtures.sunset Fixtures.bucketDown Fixtures.emptyWorld)
       (Js.Error "Image generation failed")
       (Js.Error "Image generation failed")
       Fixtures.cfg Fixtures.modelDown (Fixtures.request "alice" EmptyString)
       Fixtures.emptyWorld eq_refl eq_refl))).
Defined.

(** A model failure and a bucket failure reach the client as the same
    response. *)
Example model_and_bucket_failures_look_alike :
  fst (imageController.generateImage Fixtures.cfg Fixtures.modelDown
         (Fixtures.request "alice" EmptyString) Fixtures.emptyWorld)
  = fst (imageController.generateImage Fixtures.cfg Fixtures.bucketDown
           (Fixtures.request "alice" EmptyString) Fixtures.emptyWorld)
  /\
  fst (imageController.generateImage Fixtures.cfg Fixtures.modelDown
         (Fixtures.request "alice" EmptyString) Fixtures.emptyWorld)
  = Ok (imageController.mkResponse 500
          (imageController.Failure
             "Image generation failed. Please try again.")).
Proof. split; reflexivity. Qed.

(** C10: for an authenticated caller and a store that answers, the handler
    returns 404 when no record has the id, 403 without the record when the
    record belongs to another user, and the record when it belongs to the
    caller; and in every run, a response that carries a record carries one
    the caller owns. *)
Theorem getImageById_owner_only (ext : External)
        (req : imageController.Request) (userId : string) (w : World) :
  imageController.user_id req = Some userId ->
  Js.truthy userId = true ->
  let imageId := imageController.params_imageId req in
  let r := fst (imageController.getImageById ext req w) in
  (fault ext (calls w) (DocGet "images" imageId) = None ->
   match lookup imageId (firestore w "images") with
   | None =>
       r = Ok (imageController.mkResponse 404
                 (imageController.Failure "Image not found"))
   | Some image =>
       if Image.userId image =? userId
       then r = Ok (imageController.mkResponse 200
                      (imageController.Found (imageId, image)))
       else r = Ok (imageController.mkResponse 403
                      (imageController.Failure
                         "Forbidden. You do not have access to this image."))
   end) /\
  (forall resp image,
      r = Ok resp ->
      imageController.json resp = imageController.Found image ->
      Image.userId (snd image) = userId /\
      lookup (fst image) (firestore w "images") = Some (snd image)).
Proof.
  intros Hu Ht imageId r. subst imageId r.
  unfold imageController.getImageById. rewrite Hu. run. rewrite Ht. run.
  rewrite findById_run.
  destruct (fault ext (calls w) _); cbn.
  - split; [discriminate|]. intros resp image [= <-]. discriminate.
  - destruct (lookup _ (firestore w "images")) as [image|] eqn:L; cbn.
    + destruct (String.eqb_spec (Image.userId image) userId) as [E|E]; cbn.
      * split; [reflexivity|].
        intros resp img [= <-]. cbn. intros [= <-]. now split.
      * split; [reflexivity|]. intros resp img [= <-]. discriminate.
    + split; [reflexivity|]. intros resp img [= <-]. discriminate.
Qed.

Lemma getImageById_owner_only_witness :
  fst (imageController.getImageById Fixtures.healthy
         (Fixtures.request "bob" "b1") Fixtures.atLimit)
  = Ok (imageController.mkResponse 403
          (imageController.Failure
             "Forbidden. You do not have access to this image.")) /\
  fst (imageController.getImageById Fixtures.healthy
         (Fixtures.request "alice" "b1") Fixtures.atLimit)
  = Ok (imageController.mkResponse 200
          (imageController.Found
             ("b1", Fixtures.record "alice" Fixtures.now))) /\
  fst (imageController.getImageById Fixtures.healthy
         (Fixtures.request "alice" "zz") Fixtures.atLimit)
  = Ok (imageController.mkResponse 404
          (imageController.Failure "Image not found")).
Proof.
  split; [|split].
  - exact (proj1 (getImageById_owner_only Fixtures.healthy
                    (Fixtures.request "bob" "b1") "bob" Fixtures.atLimit
                    eq_refl eq_refl) eq_refl).
  - exact (proj1 (getImageById_owner_only Fixtures.healthy
                    (Fixtures.request "alice" "b1") "alice" Fixtures.atLimit
                    eq_refl eq_refl) eq_refl).
  - exact (proj1 (getImageById_owner_only Fixtures.healthy
                    (Fixtures.request "alice" "zz") "alice" Fixtures.atLimit
                    eq_refl eq_refl) eq_refl).
Defined.

(* ================================================================= *)
(** * End-to-end scenarios *)

(** Scenario A: prompt ["sunset"] without style parameters ends with one
    [completed] record that has a URL and the default dimensions. *)
Example scenario_success :
  let r := Attempt.run (Fixtures.sunset Fixtures.healthy Fixtures.emptyWorld) in
  option_map ImageGenerationResult.dimensions
    (match fst r with Ok res => Some res | Throw _ => None end)
  = Some (mkDimensions 1024 1024) /\
  map (fun d => (fst d, Image.status (snd d), Image.gcsUrl (snd d),
                 Image.dimensions (snd d)))
      (firestore (snd r) "images")
  = [("uuid-0", completed,
      Some "https://storage.googleapis.com/pixology-images/users/alice/images/uuid-1.png",
      Some (mkDimensions 1024 1024))].
Proof. split; reflexivity. Qed.

(** Scenario B: the model throws; one [failed] record, nothing in the
    bucket. *)
Example scenario_model_failure :
  let r := Attempt.run (Fixtures.sunset Fixtures.modelDown
                          Fixtures.emptyWorld) in
  fst r = Throw (Js.Error "Image generation failed") /\
  map (fun d => (fst d, Image.status (snd d), Image.errorMessage (snd d)))
      (firestore (snd r) "images")
  = [("uuid-0", failed, Some "503 from generativelanguage.googleapis.com")] /\
  gcs (snd r) = [].
Proof. repeat split. Qed.

(** Scenario D: the bucket rejects the save; one [failed] record without
    any artifact reference. *)
Example scenario_storage_failure :
  let r := Attempt.run (Fixtures.sunset Fixtures.bucketDown
                          Fixtures.emptyWorld) in
  fst r = Throw (Js.Error "Image generation failed") /\
  map (fun d => (fst d, Image.status (snd d), Image.errorMessage (snd d),
                 Image.gcsUrl (snd d), Image.gcsPath (snd d)))
      (firestore (snd r) "images")
  = [("uuid-0", failed, Some "Base64 image upload failed", None, None)].
Proof. repeat split. Qed.

(** * Further properties of the services and handlers *)

(* ================================================================= *)
(** * The document store: further properties *)

Lemma doc_set_ids (id : string) (d1 d2 : Image.t) (c : Collection) :
  map fst (doc_set id d2 (doc_set id d1 c)) = map fst (doc_set id d1 c).
Proof.
  assert (R : String.compare id id = Eq).
  { destruct (String.compare id id) eqn:E; [reflexivity | |];
      pose proof (String.compare_antisym id id) as H; rewrite E in H;
      discriminate H. }
  induction c as [|[k v] c IH]; cbn.
  - now rewrite R.
  - destruct (String.compare id k) eqn:E; cbn.
    + now rewrite R.
    + now rewrite R.
    + rewrite E. cbn. now rewrite IH.
Qed.

Lemma findMany_run_any (ext : External) (coll field value : string)
      (limit : nat) (w : World) :
  let lim := if (limit =? 0)%nat then None else Some limit in
  let q := QueryGet coll field value lim in
  let matching :=
    filter (fun d => Image.field_is field value (snd d)) (firestore w coll) in
  GCPDatabaseService.findMany ext coll field value limit w =
  match fault ext (calls w) q with
  | None =>
      (Ok (match lim with Some n => firstn n matching | None => matching end),
       add_call q w)
  | Some t =>
      (Throw t,
       add_log error ("Failed to find documents in " ++ coll) (add_call q w))
  end.
Proof.
  unfold GCPDatabaseService.findMany. run.
  destruct (fault ext (calls w) _); reflexivity.
Qed.

Lemma findOne_run (ext : External) (coll field value : string) (w : World) :
  let q := QueryGet coll field value (Some 1) in
  GCPDatabaseService.findOne ext coll field value w =
  match fault ext (calls w) q with
  | None =>
      (Ok (find (fun d => Image.field_is field value (snd d))
                (firestore w coll)),
       add_call q w)
  | Some t =>
      (Throw t,
       add_log error ("Failed to find document in " ++ coll) (add_call q w))
  end.
Proof.
  unfold GCPDatabaseService.findOne. run.
  destruct (fault ext (calls w) _); [reflexivity|]. cbn.
  induction (firestore w coll) as [|d l IH]; [reflexivity|].
  cbn. destruct (Image.field_is field value (snd d)); [reflexivity|].
  exact IH.
Qed.

(** X1: a document the store accepts is read back under its id with the
    two timestamps set by [create] to the time of the call, whatever
    [createdAt] the caller passed, and with every other field of the data
    as it was passed; the documents under other ids or in other collections
    are as before. *)
Theorem create_then_findById (ext : External) (coll id : string)
        (data : Image.t) (w : World) :
  fault ext (calls w) (DocSet coll id (Image.stamp (clock w) data)) = None ->
  fault ext (S (calls w)) (DocGet coll id) = None ->
  let w1 := snd (GCPDatabaseService.create ext coll id data w) in
  let stored := fst (GCPDatabaseService.findById ext coll id w1) in
  fst (GCPDatabaseService.create ext coll id data w) = Ok tt /\
  (exists doc,
      stored = Ok (Some (id, doc)) /\
      Image.createdAt doc = Some (clock w) /\
      Image.updatedAt doc = Some (clock w) /\
      Image.userId doc = Image.userId data /\
      Image.prompt doc = Image.prompt data /\
      Image.styleParams doc = Image.styleParams data /\
      Image.gcsUrl doc = Image.gcsUrl data /\
      Image.gcsBucket doc = Image.gcsBucket data /\
      Image.gcsPath doc = Image.gcsPath data /\
      Image.fileSize doc = Image.fileSize data /\
      Image.mimeType doc = Image.mimeType data /\
      Image.dimensions doc = Image.dimensions data /\
      Image.status doc = Image.status data /\
      Image.errorMessage doc = Image.errorMessage data) /\
  forall coll' id',
    (coll', id') <> (coll, id) ->
    lookup id' (firestore w1 coll') = lookup id' (firestore w coll').
Proof.
  intros Hset Hget w1 stored. subst w1 stored.
  rewrite create_run. cbn zeta. rewrite Hset. cbn [fst snd].
  rewrite findById_run. cbn. rewrite Hget. cbn.
  rewrite String.eqb_refl, lookup_doc_set. cbn.
  split; [reflexivity|]. split.
  - eexists. split; [reflexivity|]. repeat split.
  - intros coll' id' ne.
    destruct (String.eqb_spec coll' coll) as [->|_]; [|reflexivity].
    apply lookup_doc_set_other. congruence.
Qed.

Lemma create_then_findById_witness :
  option_map (fun d => Image.createdAt (snd d))
    (match fst (GCPDatabaseService.findById Fixtures.healthy "images" "c1"
                  (snd (GCPDatabaseService.create Fixtures.healthy "images"
                          "c1" (Fixtures.record "alice" Fixtures.yesterday)
                          Fixtures.atLimit))) with
     | Ok found => found
     | Throw _ => None
     end)
  = Some (Some Fixtures.now).
Proof.
  destruct (create_then_findById Fixtures.healthy "images" "c1"
              (Fixtures.record "alice" Fixtures.yesterday) Fixtures.atLimit
              eq_refl eq_refl) as (_ & (doc & Hs & Hc & _) & _).
  rewrite Hs. cbn [option_map snd]. rewrite Hc. reflexivity.
Defined.

(** X2: [create] under an id that already holds a document overwrites it:
    after two accepted writes the id holds the second data, the collection
    has the same ids as after the first write, and the other documents are
    untouched. *)
Theorem create_overwrites (ext : External) (coll id : string)
        (first second : Image.t) (w : World) :
  fault ext (calls w) (DocSet coll id (Image.stamp (clock w) first)) = None ->
  fault ext (S (calls w)) (DocSet coll id (Image.stamp (clock w) second))
  = None ->
  let w1 := snd (GCPDatabaseService.create ext coll id first w) in
  let w2 := snd (GCPDatabaseService.create ext coll id second w1) in
  lookup id (firestore w2 coll) = Some (Image.stamp (clock w) second) /\
  map fst (firestore w2 coll) = map fst (firestore w1 coll) /\
  forall coll' id',
    (coll', id') <> (coll, id) ->
    lookup id' (firestore w2 coll') = lookup id' (firestore w coll').
Proof.
  intros H1 H2 w1 w2. subst w1 w2.
  rewrite (create_run ext coll id first w). cbn zeta. rewrite H1.
  cbn [snd]. rewrite create_run. cbn. rewrite H2. cbn.
  rewrite String.eqb_refl. repeat split.
  - apply lookup_doc_set.
  - apply doc_set_ids.
  - intros coll' id' ne.
    destruct (String.eqb_spec coll' coll) as [->|_]; [|reflexivity].
    rewrite !lookup_doc_set_other by congruence. reflexivity.
Qed.

Lemma create_overwrites_witness :
  map fst
    (firestore
       (snd (GCPDatabaseService.create Fixtures.healthy "images" "b1"
               (Fixtures.record "bob" Fixtures.now)
               (snd (GCPDatabaseService.create Fixtures.healthy "images" "b1"
                       (Fixtures.record "alice" Fixtures.now)
                       Fixtures.atLimit))))
       "images")
  = ["b1"; "b2"].
Proof.
  rewrite (proj1 (proj2 (create_overwrites Fixtures.healthy "images" "b1"
                           (Fixtures.record "alice" Fixtures.now)
                           (Fixtures.record "bob" Fixtures.now)
                           Fixtures.atLimit eq_refl eq_refl))).
  reflexivity.
Defined.

Lemma firstn_incl (A : Type) (n : nat) (l : list A) : incl (firstn n l) l.
Proof.
  revert n. induction l as [|x l IH]; intros [|n]; cbn;
    try (intros y []).
  - left. assumption.
  - right. eapply IH. eassumption.
Qed.

Lemma Forall_firstn_filter (A : Type) (p : A -> bool) (n : nat) (l : list A) :
  Forall (fun x => p x = true) (firstn n (filter p l)).
Proof.
  apply Forall_forall. intros x Hx.
  apply firstn_incl in Hx. now apply filter_In in Hx.
Qed.

(** X3: a [findMany] the store answers returns documents of the collection
    that all hold [value] in [field]; with a limit other than 0 it returns
    at most [limit] of them and drops none when they are that few; with
    limit 0, which is falsy, the query carries no limit and every match is
    returned. *)
Theorem findMany_result (ext : External) (coll field value : string)
        (limit : nat) (w : World) :
  let matches :=
    filter (fun d => Image.field_is field value (snd d)) (firestore w coll) in
  let lim := if (limit =? 0)%nat then None else Some limit in
  fault ext (calls w) (QueryGet coll field value lim) = None ->
  exists docs,
    fst (GCPDatabaseService.findMany ext coll field value limit w) = Ok docs /\
    Forall (fun d => Image.field_is field value (snd d) = true) docs /\
    incl docs (firestore w coll) /\
    (limit <> 0%nat -> (List.length docs <= limit)%nat) /\
    (limit = 0%nat \/ (List.length matches <= limit)%nat -> docs = matches).
Proof.
  intros matches lim F. subst matches lim.
  rewrite findMany_run_any. cbn zeta. rewrite F. cbn [fst].
  eexists. split; [reflexivity|].
  destruct (Nat.eqb_spec limit 0) as [->|ne].
  - repeat split.
    + apply Forall_forall. intros x Hx. now apply filter_In in Hx.
    + intros x Hx. now apply filter_In in Hx.
    + intros H. now elim H.
  - repeat split.
    + apply Forall_firstn_filter.
    + intros x Hx. apply firstn_incl in Hx. now apply filter_In in Hx.
    + intros _. apply firstn_le_length.
    + intros [H|H]; [contradiction|]. now apply firstn_all2.
Qed.

Lemma findMany_result_witness :
  exists docs,
    fst (GCPDatabaseService.findMany Fixtures.healthy "images" "userId"
           "alice" 0 Fixtures.crowded) = Ok docs /\
    List.length docs = 5%nat.
Proof.
  destruct (findMany_result Fixtures.healthy "images" "userId" "alice" 0
              Fixtures.crowded eq_refl) as (docs & H & _ & _ & _ & E).
  exists docs. split; [exact H|].
  rewrite (E (or_introl eq_refl)). reflexivity.
Defined.

(** X4: a [findOne] the store answers returns the first document, in the
    order of ids, that holds [value] in [field], and [null] exactly when no
    document does. *)
Theorem findOne_first_match (ext : External) (coll field value : string)
        (w : World) :
  fault ext (calls w) (QueryGet coll field value (Some 1)) = None ->
  let holds := fun d : string * Image.t =>
                 Image.field_is field value (snd d) in
  match fst (GCPDatabaseService.findOne ext coll field value w) with
  | Ok (Some doc) =>
      holds doc = true /\
      exists before after,
        firestore w coll = (before ++ doc :: after)%list /\
        Forall (fun d => holds d = false) before
  | Ok None => Forall (fun d => holds d = false) (firestore w coll)
  | Throw _ => False
  end.
Proof.
  intros F holds. rewrite findOne_run. cbn zeta. rewrite F. cbn [fst].
  fold holds.
  induction (firestore w coll) as [|d l IH]; cbn.
  - constructor.
  - destruct (holds d) eqn:E.
    + split; [exact E|]. exists [], l. split; [reflexivity | constructor].
    + destruct (find holds l) as [doc|].
      * destruct IH as (Hd & before & after & -> & Hb).
        split; [exact Hd|].
        exists (d :: before), after. split; [reflexivity|].
        now constructor.
      * now constructor.
Qed.

Lemma findOne_first_match_witness :
  Forall (fun d => Image.field_is "userId" "bob" (snd d) = false)
         (firestore Fixtures.crowded "images").
Proof.
  exact (findOne_first_match Fixtures.healthy "images" "userId" "bob"
           Fixtures.crowded eq_refl).
Defined.

(* ================================================================= *)
(** * The image history *)

#[local] Arguments ImageGenerationService.getUserImageHistory : simpl never.

Lemma field_is_userId_true (userId : string) (d : Image.t) :
  Image.field_is "userId" userId d = true -> Image.userId d = userId.
Proof. rewrite field_is_userId. apply String.eqb_eq. Qed.

Lemma getUserImageHistory_run (cfg : Config.t) (ext : External)
      (userId : string) (limit : nat) (w : World) :
  let coll := Config.imagesCollection cfg in
  let lim := if (limit =? 0)%nat then None else Some limit in
  let q := QueryGet coll "userId" userId lim in
  let matching :=
    filter (fun d => Image.field_is "userId" userId (snd d))
           (firestore w coll) in
  ImageGenerationService.getUserImageHistory cfg ext userId limit w =
  match fault ext (calls w) q with
  | None =>
      (Ok (match lim with Some n => firstn n matching | None => matching end),
       add_log info "Retrieved user image history" (add_call q w))
  | Some _ =>
      (Throw (Js.Error "Failed to retrieve image history"),
       add_log error "Failed to retrieve user image history"
         (add_log error ("Failed to find documents in " ++ coll)
            (add_call q w)))
  end.
Proof.
  unfold ImageGenerationService.getUserImageHistory. run.
  rewrite findMany_run_any. cbn.
  destruct (fault ext (calls w) _); reflexivity.
Qed.

(** The documents a query on [userId] returns. *)
Lemma history_window (userId : string) (limit : nat) (c : Collection) :
  let matching :=
    filter (fun d => Image.field_is "userId" userId (snd d)) c in
  let docs := match (if (limit =? 0)%nat then None else Some limit) with
              | Some n => firstn n matching
              | None => matching
              end in
  Forall (fun d => Image.userId (snd d) = userId) docs /\
  incl docs c /\
  (limit <> 0%nat -> (List.length docs <= limit)%nat).
Proof.
  cbn zeta. destruct (Nat.eqb_spec limit 0) as [->|ne]; repeat split.
  - apply Forall_forall. intros x Hx. apply filter_In in Hx.
    now apply field_is_userId_true.
  - intros x Hx. now apply filter_In in Hx.
  - intros H. now elim H.
  - apply Forall_forall. intros x Hx. apply firstn_incl in Hx.
    apply filter_In in Hx. now apply field_is_userId_true.
  - intros x Hx. apply firstn_incl in Hx. now apply filter_In in Hx.
  - intros _. apply firstn_le_length.
Qed.

(** X5: the history of a user holds only records of that user, taken from
    the configured collection, at most [limit] of them when the limit is
    not 0; a failing read surfaces as the fixed error "Failed to retrieve
    image history", not as the store's error; the one external call is
    the query on [userId], and nothing is written. *)
Theorem getUserImageHistory_own_records (cfg : Config.t) (ext : External)
        (userId : string) (limit : nat) (w : World) :
  let r := ImageGenerationService.getUserImageHistory cfg ext userId limit w in
  match fst r with
  | Ok images =>
      Forall (fun d => Image.userId (snd d) = userId) images /\
      incl images (firestore w (Config.imagesCollection cfg)) /\
      (limit <> 0%nat -> (List.length images <= limit)%nat)
  | Throw t => t = Js.Error "Failed to retrieve image history"
  end /\
  new_calls w (snd r)
  = [QueryGet (Config.imagesCollection cfg) "userId" userId
       (if (limit =? 0)%nat then None else Some limit)] /\
  doc_writes (new_calls w (snd r)) = [] /\
  firestore (snd r) = firestore w /\
  gcs (snd r) = gcs w.
Proof.
  intros r. subst r. rewrite getUserImageHistory_run. cbn zeta.
  destruct (fault ext (calls w) _); cbn [fst snd].
  - repeat split; now made.
  - split; [apply history_window|]. repeat split; now made.
Qed.

(** [parseInt(limit) || 50] is never 0. *)
Lemma historyLimit_positive (parsed : option nat) :
  (imageController.historyLimit parsed =? 0)%nat = false.
Proof.
  unfold imageController.historyLimit.
  destruct parsed as [n|]; [|reflexivity].
  destruct (Nat.eqb_spec n 0) as [|ne]; [reflexivity|].
  now apply Nat.eqb_neq.
Qed.

(** X6: the history handler always answers, and what it answers is fixed by
    the caller id and by the store. Without a caller id, or with an empty
    one, it answers 401 and makes no external call. With a caller id its
    one external call is the query for the first [limit] records of the
    caller, where [limit] is the requested one, or 50 when the parameter is
    missing, not a number or 0: when the store answers, the handler answers
    200 with exactly those records, which all belong to the caller, and
    with [count] their number, at most [limit]; when the store fails, it
    answers 500 with the fixed message. It writes nothing. *)
Theorem getImageHistory_answers (cfg : Config.t) (ext : External)
        (req : imageController.HistoryRequest) (w : World) :
  let r := imageController.getImageHistory cfg ext req w in
  let limit :=
    imageController.historyLimit (imageController.query_limit req) in
  (Js.truthy_opt (imageController.history_user_id req) = false ->
   fst r = Ok (imageController.mkHistoryResponse 401
                 (imageController.HistoryFailure "User not authenticated")) /\
   new_calls w (snd r) = []) /\
  (forall userId,
      imageController.history_user_id req = Some userId ->
      Js.truthy userId = true ->
      let q := QueryGet (Config.imagesCollection cfg) "userId" userId
                 (Some limit) in
      let images := firstn limit (Quota.history cfg userId w) in
      new_calls w (snd r) = [q] /\
      fst r
      = Ok (match fault ext (calls w) q with
            | None =>
                imageController.mkHistoryResponse 200
                  (imageController.Images images (List.length images))
            | Some _ =>
                imageController.mkHistoryResponse 500
                  (imageController.HistoryFailure
                     "Failed to retrieve image history")
            end) /\
      Forall (fun d => Image.userId (snd d) = userId) images /\
      (List.length images <= limit)%nat) /\
  firestore (snd r) = firestore w /\
  gcs (snd r) = gcs w.
Proof.
  intros r limit. subst r limit. unfold imageController.getImageHistory.
  assert (silent : forall w0 : World,
             skipn (List.length (trace w0)) (trace w0) = []).
  { intros w0. apply skipn_all. }
  destruct (imageController.history_user_id req) as [userId|] eqn:U.
  2: { run. unfold new_calls. cbn. rewrite silent.
       split; [now split|]. split; [discriminate|now split]. }
  destruct (Js.truthy userId) eqn:T.
  2: { run. unfold new_calls. cbn. rewrite T, silent.
       split; [now split|]. split; [|now split].
       intros u [= <-]. congruence. }
  split; [cbn; rewrite T; discriminate|].
  pose proof (historyLimit_positive (imageController.query_limit req)) as P.
  assert (R := getUserImageHistory_run cfg ext userId
                 (imageController.historyLimit
                    (imageController.query_limit req)) w).
  cbn zeta in R. rewrite P in R.
  run. rewrite R.
  destruct (history_window userId
              (imageController.historyLimit
                 (imageController.query_limit req))
              (firestore w (Config.imagesCollection cfg)))
    as (Ho & _ & Hl).
  rewrite P in Ho, Hl.
  assert (Hle := Hl (proj1 (Nat.eqb_neq _ _) P)).
  split.
  - intros u [= <-] _. cbn zeta. unfold Quota.history.
    destruct (fault ext (calls w) _); run;
      (split; [now made|]); (split; [reflexivity|]); split;
      [exact Ho | exact Hle | exact Ho | exact Hle].
  - destruct (fault ext (calls w) _); run; split; reflexivity.
Qed.

Lemma getImageHistory_answers_witness :
  fst (imageController.getImageHistory Fixtures.cfg Fixtures.healthy
         (Fixtures.historyRequest "alice" (Some 2)) Fixtures.crowded)
  = Ok (imageController.mkHistoryResponse 200
          (imageController.Images
             [ ("a1", Fixtures.record "alice" Fixtures.yesterday);
               ("a2", Fixtures.record "alice" Fixtures.yesterday) ] 2)).
Proof.
  exact (proj1 (proj2 (proj1 (proj2
           (getImageHistory_answers Fixtures.cfg Fixtures.healthy
              (Fixtures.historyRequest "alice" (Some 2)) Fixtures.crowded))
           "alice" eq_refl eq_refl))).
Defined.

(* ================================================================= *)
(** * The generation pipeline: further properties *)

(** A run that returns went through every call. *)
Lemma generateImage_ok_inv (a : Attempt.t) (r : ImageGenerationResult.t) :
  fst (Attempt.run a) = Ok r ->
  r = Attempt.result a /\ snd (Attempt.run a) = Attempt.done a.
Proof.
  rewrite generateImage_run. cbn zeta.
  repeat match goal with
         | |- context [match ?x with _ => _ end] => destruct x
         end; cbn; try discriminate.
  intros [= <-]. now split.
Qed.

(** X7: an attempt that returns has written exactly one document, the
    [completed] record, under the returned id, which is the id drawn at the
    start; the record carries the returned URL, size and dimensions, the
    caller and the prompt; the bucket holds the artifact under the record's
    path, and the URL is the public base followed by that path; no other
    document changes. *)
Theorem generateImage_success (a : Attempt.t) (r : ImageGenerationResult.t) :
  fst (Attempt.run a) = Ok r ->
  let w := Attempt.world a in
  let w' := snd (Attempt.run a) in
  ImageGenerationResult.imageId r = uuidv4 (Attempt.ext a) (uuids w) /\
  ImageGenerationResult.prompt r = Attempt.prompt a /\
  exists record path,
    doc_writes (new_calls w w')
    = [(Config.imagesCollection (Attempt.cfg a),
        ImageGenerationResult.imageId r, record)] /\
    lookup (ImageGenerationResult.imageId r)
           (firestore w' (Config.imagesCollection (Attempt.cfg a)))
    = Some record /\
    Image.status record = completed /\
    Image.userId record = Attempt.userId a /\
    Image.prompt record = Attempt.prompt a /\
    Image.errorMessage record = None /\
    Image.gcsUrl record = Some (ImageGenerationResult.imageUrl r) /\
    Image.fileSize record = Some (ImageGenerationResult.fileSize r) /\
    Image.dimensions record = Some (ImageGenerationResult.dimensions r) /\
    Image.gcsPath record = Some path /\
    ImageGenerationResult.imageUrl r
    = GCPStorageService.getPublicUrl (Attempt.cfg a) path /\
    option_map content (lookup path (gcs w'))
    = Some (Buffer.from_base64 ImageGenerationService.placeholderImage) /\
    forall coll id,
      (coll, id) <> (Config.imagesCollection (Attempt.cfg a),
                     ImageGenerationResult.imageId r) ->
      lookup id (firestore w' coll) = lookup id (firestore w coll).
Proof.
  intros H w w'. subst w w'.
  apply generateImage_ok_inv in H as [-> ->].
  split; [reflexivity|]. split; [reflexivity|].
  exists (Attempt.successRecord a), (Attempt.filePath a).
  split.
  { unfold Attempt.done, Attempt.afterRecord, Attempt.afterGetMetadata,
      Attempt.afterMakePublic, Attempt.afterSave, Attempt.afterGeneration.
    now made. }
  split.
  { cbn -[lookup doc_set]. rewrite String.eqb_refl. apply lookup_doc_set. }
  unfold Attempt.result, Attempt.successRecord. cbn.
  do 9 (split; [reflexivity|]).
  split.
  { cbn. now rewrite String.eqb_refl. }
  intros coll id ne. cbn -[lookup doc_set].
  destruct (String.eqb_spec coll (Attempt.collection a)) as [->|_];
    [|reflexivity].
  apply lookup_doc_set_other. unfold Attempt.collection in *. congruence.
Qed.

Lemma generateImage_success_witness :
  ImageGenerationResult.imageId
    (Attempt.result (Fixtures.sunset Fixtures.healthy Fixtures.emptyWorld))
  = uuidv4 (Attempt.ext (Fixtures.sunset Fixtures.healthy Fixtures.emptyWorld))
      (uuids (Attempt.world
                (Fixtures.sunset Fixtures.healthy Fixtures.emptyWorld))).
Proof.
  assert (H : fst (Attempt.run
                     (Fixtures.sunset Fixtures.healthy Fixtures.emptyWorld))
              = Ok (Attempt.result
                      (Fixtures.sunset Fixtures.healthy Fixtures.emptyWorld)))
    by (vm_compute; reflexivity).
  exact (proj1 (generateImage_success _ _ H)).
Defined.

(** X8: when the configured default width and height are not 0, neither is
    any returned width or height: a requested dimension of 0 is replaced by
    the default, any other requested dimension is returned as it is. *)
Theorem generateImage_dimensions (a : Attempt.t)
        (r : ImageGenerationResult.t) :
  Config.defaultWidth (Attempt.cfg a) <> 0%Z ->
  Config.defaultHeight (Attempt.cfg a) <> 0%Z ->
  fst (Attempt.run a) = Ok r ->
  let requested :=
    match Attempt.styleParams a with
    | Some sp => StyleParams.dimensions sp
    | None => None
    end in
  let dims := ImageGenerationResult.dimensions r in
  width dims <> 0%Z /\ height dims <> 0%Z /\
  match requested with
  | Some d =>
      (width d <> 0%Z -> width dims = width d) /\
      (height d <> 0%Z -> height dims = height d) /\
      (width d = 0%Z -> width dims = Config.defaultWidth (Attempt.cfg a)) /\
      (height d = 0%Z -> height dims = Config.defaultHeight (Attempt.cfg a))
  | None =>
      dims = mkDimensions (Config.defaultWidth (Attempt.cfg a))
                          (Config.defaultHeight (Attempt.cfg a))
  end.
Proof.
  intros Hw Hh H requested dims. subst requested dims.
  apply generateImage_ok_inv in H as [-> _].
  unfold Attempt.result, Attempt.dimensions. cbn.
  destruct (Attempt.styleParams a) as [sp|]; cbn;
    [destruct (StyleParams.dimensions sp) as [[rw rh]|]; cbn|];
    try (repeat split; assumption).
  destruct (Z.eqb_spec rw 0), (Z.eqb_spec rh 0); repeat split;
    congruence.
Qed.

Lemma generateImage_dimensions_witness :
  ImageGenerationResult.dimensions (Attempt.result Fixtures.zeroWidthAttempt)
  = mkDimensions 1024 512.
Proof.
  assert (H : fst (Attempt.run Fixtures.zeroWidthAttempt)
              = Ok (Attempt.result Fixtures.zeroWidthAttempt))
    by (vm_compute; reflexivity).
  assert (Hw : Config.defaultWidth (Attempt.cfg Fixtures.zeroWidthAttempt)
               <> 0%Z) by discriminate.
  assert (Hh : Config.defaultHeight (Attempt.cfg Fixtures.zeroWidthAttempt)
               <> 0%Z) by discriminate.
  destruct (generateImage_dimensions Fixtures.zeroWidthAttempt _ Hw Hh H)
    as (_ & _ & _ & Hheight & Hwidth & _).
  destruct (ImageGenerationResult.dimensions
              (Attempt.result Fixtures.zeroWidthAttempt)) as [rw rh].
  cbn in Hheight, Hwidth.
  rewrite (Hwidth eq_refl), (Hheight ltac:(discriminate)). reflexivity.
Defined.

(* ================================================================= *)
(** * Quota accounting *)

Lemma lookup_fresh (id : string) (c : Collection) :
  ~ In id (map fst c) -> lookup id c = None.
Proof.
  induction c as [|[k v] c IH]; cbn; [reflexivity|]. intros H.
  destruct (String.eqb_spec k id) as [->|_]; [elim H; now left|].
  apply IH. intros Hin. apply H. now right.
Qed.

Lemma filter_doc_set_fresh (p : string * Image.t -> bool) (id : string)
      (d : Image.t) (c : Collection) :
  ~ In id (map fst c) ->
  List.length (filter p (doc_set id d c))
  = (List.length (filter p c) + if p (id, d) then 1 else 0)%nat.
Proof.
  induction c as [|[k v] c IH]; cbn; intros H.
  - now destruct (p (id, d)).
  - destruct (String.compare id k) eqn:E.
    + apply String.compare_eq_iff in E. elim H. now left.
    + cbn. destruct (p (id, d)), (p (k, v)); cbn; lia.
    + cbn. assert (H' : ~ In id (map fst c)) by (intros Hin; apply H; now right).
      specialize (IH H'). destruct (p (k, v)); cbn; lia.
Qed.

(** A world that differs from the start of the attempt by one accepted
    write of a record of the caller stamped with the current time. *)
Lemma createdToday_after_write (a : Attempt.t) (rec : Image.t) (w' : World) :
  let w := Attempt.world a in
  let coll := Config.imagesCollection (Attempt.cfg a) in
  ~ In (Attempt.imageId a) (map fst (firestore w coll)) ->
  (startOfDay (Attempt.ext a) (clock w) <= clock w)%Z ->
  clock w' = clock w ->
  firestore w' coll = doc_set (Attempt.imageId a) rec (firestore w coll) ->
  Image.userId rec = Attempt.userId a ->
  Image.createdAt rec = Some (clock w) ->
  List.length (Quota.createdToday (Attempt.cfg a) (Attempt.ext a)
                 (Attempt.userId a) w')
  = (List.length (Quota.createdToday (Attempt.cfg a) (Attempt.ext a)
                    (Attempt.userId a) w)
     + match lookup (Attempt.imageId a) (firestore w' coll) with
       | Some _ => 1
       | None => 0
       end)%nat.
Proof.
  intros w coll Hfresh Hday Hclock Hstore Huser Hcreated.
  unfold Quota.createdToday, Quota.today, createdSince.
  fold coll. rewrite Hstore, Hclock, lookup_doc_set.
  rewrite filter_doc_set_fresh by exact Hfresh.
  unfold since. cbn [snd]. rewrite Huser, Hcreated, String.eqb_refl.
  fold w. now rewrite (proj2 (Z.leb_le _ _) Hday).
Qed.

Lemma createdToday_unchanged (a : Attempt.t) (w' : World) :
  let w := Attempt.world a in
  let coll := Config.imagesCollection (Attempt.cfg a) in
  ~ In (Attempt.imageId a) (map fst (firestore w coll)) ->
  clock w' = clock w ->
  firestore w' = firestore w ->
  List.length (Quota.createdToday (Attempt.cfg a) (Attempt.ext a)
                 (Attempt.userId a) w')
  = (List.length (Quota.createdToday (Attempt.cfg a) (Attempt.ext a)
                    (Attempt.userId a) w)
     + match lookup (Attempt.imageId a) (firestore w' coll) with
       | Some _ => 1
       | None => 0
       end)%nat.
Proof.
  intros w coll Hfresh Hclock Hstore.
  unfold Quota.createdToday, Quota.today. fold coll.
  rewrite Hstore, Hclock, (lookup_fresh _ _ Hfresh). fold w. lia.
Qed.

Lemma recovered_count (a : Attempt.t) (e : Js.Thrown) (w1 : World) :
  let w := Attempt.world a in
  let coll := Config.imagesCollection (Attempt.cfg a) in
  let w' := Attempt.recovered a e w1 in
  ~ In (Attempt.imageId a) (map fst (firestore w coll)) ->
  (startOfDay (Attempt.ext a) (clock w) <= clock w)%Z ->
  clock w1 = clock w ->
  firestore w1 = firestore w ->
  List.length (Quota.createdToday (Attempt.cfg a) (Attempt.ext a)
                 (Attempt.userId a) w')
  = (List.length (Quota.createdToday (Attempt.cfg a) (Attempt.ext a)
                    (Attempt.userId a) w)
     + match lookup (Attempt.imageId a) (firestore w' coll) with
       | Some _ => 1
       | None => 0
       end)%nat.
Proof.
  intros w coll w' Hfresh Hday Hclock Hstore. subst w'.
  unfold Attempt.recovered.
  destruct (fault _ (calls w1) _).
  - apply createdToday_unchanged; [exact Hfresh | exact Hclock | exact Hstore].
  - apply (createdToday_after_write a (Attempt.failureRecord a e));
      try assumption; try reflexivity.
    cbn -[doc_set]. unfold Attempt.collection.
    now rewrite String.eqb_refl, Hstore.
Qed.

(** X9: an attempt under a fresh id, on a day whose start is not after the
    current time, adds one to the number of the caller's records of today
    exactly when it leaves a record under its id, whether that record is
    [completed] or [failed]; an attempt that leaves no record leaves the
    number as it was. *)
Theorem attempt_consumes_quota (a : Attempt.t) :
  let w := Attempt.world a in
  let w' := snd (Attempt.run a) in
  let coll := Config.imagesCollection (Attempt.cfg a) in
  let today world :=
    List.length (Quota.createdToday (Attempt.cfg a) (Attempt.ext a)
                   (Attempt.userId a) world) in
  ~ In (Attempt.imageId a) (map fst (firestore w coll)) ->
  (startOfDay (Attempt.ext a) (clock w) <= clock w)%Z ->
  today w' = (today w + match lookup (Attempt.imageId a) (firestore w' coll) with
                        | Some _ => 1
                        | None => 0
                        end)%nat.
Proof.
  intros w w' coll today Hfresh Hday. subst w' today.
  rewrite generateImage_run. cbn zeta.
  repeat match goal with
         | |- context [match ?x with _ => _ end] =>
             lazymatch x with
             | lookup _ _ => fail
             | _ => destruct x
             end
         end; cbn [snd];
    try (apply recovered_count; [exact Hfresh | exact Hday | reflexivity..]).
  apply (createdToday_after_write a (Attempt.successRecord a));
    try assumption; try reflexivity.
  cbn -[doc_set]. unfold Attempt.collection. now rewrite String.eqb_refl.
Qed.

Lemma attempt_consumes_quota_witness :
  List.length
    (Quota.createdToday Fixtures.cfg Fixtures.modelDown "alice"
       (snd (Attempt.run (Fixtures.sunset Fixtures.modelDown
                            Fixtures.belowLimit))))
  = 2%nat.
Proof.
  assert (Hfresh : ~ In (Attempt.imageId
                           (Fixtures.sunset Fixtures.modelDown
                              Fixtures.belowLimit))
                        (map fst (firestore Fixtures.belowLimit "images"))).
  { cbn. intros [H|[]]. discriminate H. }
  assert (Hday : (startOfDay Fixtures.modelDown (clock Fixtures.belowLimit)
                  <= clock Fixtures.belowLimit)%Z)
    by (vm_compute; discriminate).
  pose proof (attempt_consumes_quota
                (Fixtures.sunset Fixtures.modelDown Fixtures.belowLimit)
                Hfresh Hday) as H.
  vm_compute in H. vm_compute. exact H.
Defined.

(** X10: the gate never reports the limit as reached for a user who has made
    fewer than [limit] images today. *)
Theorem hasReachedDailyLimit_sound (cfg : Config.t) (ext : External)
        (userId : string) (w : World) :
  fst (Quota.run cfg ext userId w) = Ok true ->
  (Quota.limit cfg
   <= List.length (Quota.createdToday cfg ext userId w))%nat.
Proof.
  intros H.
  destruct (Nat.le_gt_cases (Quota.limit cfg)
              (List.length (Quota.createdToday cfg ext userId w)))
    as [Hle|Hgt]; [exact Hle|].
  rewrite (hasReachedDailyLimit_below cfg ext userId w Hgt) in H.
  discriminate H.
Qed.

Lemma hasReachedDailyLimit_sound_witness :
  (Quota.limit Fixtures.cfg
   <= List.length (Quota.createdToday Fixtures.cfg Fixtures.healthy "alice"
                     Fixtures.atLimit))%nat.
Proof.
  exact (hasReachedDailyLimit_sound Fixtures.cfg Fixtures.healthy "alice"
           Fixtures.atLimit eq_refl).
Defined.

(** X11: when the store answers, every record of the user has a creation
    time and the user has at most [limit + 1] records in all, the gate
    reports the limit as reached exactly when the user has made at least
    [limit] images today. *)
Theorem hasReachedDailyLimit_exact (cfg : Config.t) (ext : External)
        (userId : string) (w : World) :
  fault ext (calls w) (Quota.query cfg userId) = None ->
  (List.length (Quota.history cfg userId w) <= Quota.limit cfg + 1)%nat ->
  Forall (fun d => Image.createdAt (snd d) <> None)
         (Quota.history cfg userId w) ->
  (fst (Quota.run cfg ext userId w) = Ok true <->
   (Quota.limit cfg
    <= List.length (Quota.createdToday cfg ext userId w))%nat) /\
  (fst (Quota.run cfg ext userId w) = Ok false <->
   (List.length (Quota.createdToday cfg ext userId w)
    < Quota.limit cfg)%nat).
Proof.
  intros F L S.
  rewrite (hasReachedDailyLimit_short_history cfg ext userId w F L S).
  destruct (Nat.leb_spec (Quota.limit cfg)
              (List.length (Quota.createdToday cfg ext userId w)))
    as [Hle|Hlt];
    split; split; intros H; try reflexivity; try discriminate; try lia.
Qed.

Lemma hasReachedDailyLimit_exact_witness :
  fst (Quota.run Fixtures.cfg Fixtures.healthy "alice" Fixtures.atLimit)
  = Ok true.
Proof.
  assert (L : (List.length (Quota.history Fixtures.cfg "alice"
                              Fixtures.atLimit)
               <= Quota.limit Fixtures.cfg + 1)%nat)
    by (vm_compute; lia).
  assert (S : Forall (fun d => Image.createdAt (snd d) <> None)
                     (Quota.history Fixtures.cfg "alice" Fixtures.atLimit))
    by (repeat constructor; discriminate).
  apply (proj1 (hasReachedDailyLimit_exact Fixtures.cfg Fixtures.healthy
                  "alice" Fixtures.atLimit eq_refl L S)).
  vm_compute. lia.
Defined.

(** X12: the gate always answers and only reads: whatever the store does,
    the call returns a boolean, its only external call is the query for the
    first [limit + 1] records of the user, and the collections, the bucket
    and the uuid generator are left as they were. *)
Theorem hasReachedDailyLimit_read_only (cfg : Config.t) (ext : External)
        (userId : string) (w : World) :
  let r := Quota.run cfg ext userId w in
  (exists verdict, fst r = Ok verdict) /\
  new_calls w (snd r)
  = [QueryGet (Config.imagesCollection cfg) "userId" userId
       (Some (Config.maxImagesPerUserPerDay cfg + 1))] /\
  firestore (snd r) = firestore w /\
  gcs (snd r) = gcs w /\
  uuids (snd r) = uuids w.
Proof.
  intros r. subst r. rewrite hasReachedDailyLimit_run. cbn zeta.
  destruct (fault ext (calls w) _).
  - split; [now eexists|]. split; [now made|]. now repeat split.
  - destruct (ImageGenerationService.filterToday _ _);
      (split; [now eexists|]); (split; [now made|]); now repeat split.
Qed.

(* ================================================================= *)
(** * The artifact store: further properties *)

Lemma append_assoc (s t u : string) : (s ++ t) ++ u = s ++ (t ++ u).
Proof.
  induction s as [|c s IH]; [reflexivity|].
  change (String c ((s ++ t) ++ u) = String c (s ++ (t ++ u))).
  now rewrite IH.
Qed.

Lemma strip_prefix_append (p s : string) :
  GCPStorageService.strip_prefix p (p ++ s) = Some s.
Proof.
  induction p as [|c p IH]; [reflexivity|].
  change (String c p ++ s) with (String c (p ++ s)).
  cbn [GCPStorageService.strip_prefix]. now rewrite Ascii.eqb_refl.
Qed.

Lemma until_semicolon_append (m rest : string) :
  no_semicolon m = true ->
  GCPStorageService.until_semicolon (m ++ String ";" rest)
  = Some (m, String ";" rest).
Proof.
  induction m as [|c m IH]; [reflexivity|].
  cbn [no_semicolon]. intros H. apply andb_prop in H as [Hc Hm].
  change (String c m ++ String ";" rest)
    with (String c (m ++ String ";" rest)).
  cbn [GCPStorageService.until_semicolon].
  apply negb_true_iff in Hc. rewrite Hc, (IH Hm). reflexivity.
Qed.

Lemma length_zero (s : string) :
  s <> EmptyString -> (String.length s =? 0)%nat = false.
Proof. destruct s; [congruence | reflexivity]. Qed.

Lemma truthy_nonempty (s : string) : s <> EmptyString -> Js.truthy s = true.
Proof. destruct s; [congruence | reflexivity]. Qed.

Lemma match_data_url_wellformed (mime payload : string) :
  mime <> EmptyString -> no_semicolon mime = true ->
  payload <> EmptyString ->
  GCPStorageService.no_line_terminator payload = true ->
  GCPStorageService.match_data_url ("data:" ++ mime ++ ";base64," ++ payload)
  = Some (mime, payload).
Proof.
  intros Hm Hs Hp Hl. unfold GCPStorageService.match_data_url.
  rewrite strip_prefix_append.
  change (";base64," ++ payload) with (String ";" ("base64," ++ payload)).
  rewrite (until_semicolon_append _ _ Hs), (length_zero _ Hm).
  change (String ";" ("base64," ++ payload)) with (";base64," ++ payload).
  rewrite strip_prefix_append, (length_zero _ Hp), Hl. reflexivity.
Qed.

(** X13: for every data URL ["data:" mime ";base64," payload] whose MIME
    type is not empty and has no [';'] and whose payload is not empty and
    has no line break, the upload saves the base64 decoding of the payload
    under that MIME type. *)
Theorem uploadBase64Image_any_data_url (u : Upload.t)
        (mime payload : string) :
  mime <> EmptyString -> no_semicolon mime = true ->
  payload <> EmptyString ->
  GCPStorageService.no_line_terminator payload = true ->
  Upload.base64Data u = "data:" ++ mime ++ ";base64," ++ payload ->
  GCPStorageService.mime_and_content (Upload.base64Data u) = (mime, payload) /\
  saved (new_calls (Upload.world u) (snd (Upload.run u)))
  = [(mime, Buffer.from_base64 payload)].
Proof.
  intros Hm Hs Hp Hl E.
  assert (H : GCPStorageService.mime_and_content (Upload.base64Data u)
              = (mime, payload)).
  { rewrite E. unfold GCPStorageService.mime_and_content.
    rewrite (match_data_url_wellformed _ _ Hm Hs Hp Hl).
    unfold Js.startsWith.
    change ("data:" ++ mime ++ ";base64," ++ payload)
      with (String "d" (String "a" (String "t" (String "a" (String ":"
              (mime ++ ";base64," ++ payload)))))).
    cbn [String.prefix]. 
    repeat match goal with
           | |- context [ascii_dec ?x ?y] => destruct (ascii_dec x y);
                                             [|congruence]
           end.
    unfold GCPStorageService.or_string.
    rewrite (truthy_nonempty _ Hm), (truthy_nonempty _ Hp).
    now destruct (mime ++ ";base64," ++ payload). }
  split; [exact H|]. rewrite upload_saves, H. reflexivity.
Qed.

Lemma uploadBase64Image_any_data_url_witness :
  saved (new_calls Fixtures.emptyWorld
           (snd (Upload.run (Fixtures.jpegUpload Fixtures.emptyWorld))))
  = [("image/jpeg", Buffer.from_base64 "AAAA")].
Proof.
  apply (uploadBase64Image_any_data_url
           (Fixtures.jpegUpload Fixtures.emptyWorld) "image/jpeg" "AAAA");
    try reflexivity; discriminate.
Defined.

Lemma prefix_users (userId rest : string) :
  String.prefix ("users/" ++ userId ++ "/images/")
                ("users/" ++ userId ++ "/images/" ++ rest) = true.
Proof.
  replace ("users/" ++ userId ++ "/images/" ++ rest)
    with (("users/" ++ userId ++ "/images/") ++ rest).
  - apply prefix_append.
  - now rewrite !append_assoc.
Qed.

(** X14: an upload that returns has stored the decoded bytes, publicly
    readable and under the extracted MIME type, at the returned path; the
    path lies under [users/{userId}/images/], the returned URL is
    [getPublicUrl] of the path, the returned size is the number of bytes
    and the returned bucket is the configured one. *)
Theorem uploadBase64Image_success (u : Upload.t) (r : UploadResult.t) :
  fst (Upload.run u) = Ok r ->
  String.prefix ("users/" ++ Upload.userId u ++ "/images/")
                (UploadResult.path r) = true /\
  UploadResult.publicUrl r
  = GCPStorageService.getPublicUrl (Upload.cfg u) (UploadResult.path r) /\
  UploadResult.bucket r = Config.bucketName (Upload.cfg u) /\
  exists file,
    lookup (UploadResult.path r) (gcs (snd (Upload.run u))) = Some file /\
    savedFiles (new_calls (Upload.world u) (snd (Upload.run u)))
    = [(UploadResult.path r, file)] /\
    contentType file = UploadResult.mimeType r /\
    UploadResult.mimeType r
    = fst (GCPStorageService.mime_and_content (Upload.base64Data u)) /\
    UploadResult.size r = Z.of_nat (List.length (content file)) /\
    public file = true /\
    content file
    = Buffer.from_base64
        (snd (GCPStorageService.mime_and_content (Upload.base64Data u))).
Proof.
  rewrite uploadBase64Image_run. cbn zeta.
  destruct u as [cfg ext d f uid m w]. upload_defs. cbn.
  destruct (fault ext (calls w) _); [discriminate|].
  destruct (fault ext (S (calls w)) _); [discriminate|].
  destruct (fault ext (S (S (calls w))) _); [discriminate|].
  cbn. intros [= <-]. cbn.
  split; [apply prefix_users|]. split; [reflexivity|].
  split; [reflexivity|].
  eexists. split; [now rewrite String.eqb_refl|].
  split; [now made|]. now repeat split.
Qed.

Lemma uploadBase64Image_success_witness :
  String.prefix
    ("users/" ++ Upload.userId (Fixtures.rawUpload Fixtures.emptyWorld)
     ++ "/images/")
    (UploadResult.path Fixtures.rawResult) = true.
Proof.
  assert (H : fst (Upload.run (Fixtures.rawUpload Fixtures.emptyWorld))
              = Ok Fixtures.rawResult) by (vm_compute; reflexivity).
  exact (proj1 (uploadBase64Image_success _ _ H)).
Defined.

(** X15: when the bucket accepts the object and then fails to make it
    public or to report its metadata, the upload throws its fixed error and
    the object stays in the bucket. *)
Theorem uploadBase64Image_partial_failure (u : Upload.t) :
  let ext := Upload.ext u in
  let n := calls (Upload.world u) in
  let path := Upload.filePath u in
  fault ext n (FileSave path (Upload.file u)) = None ->
  fault ext (1 + n) (FileMakePublic path) <> None \/
  fault ext (2 + n) (FileGetMetadata path) <> None ->
  fst (Upload.run u) = Throw (Js.Error "Base64 image upload failed") /\
  lookup path (gcs (snd (Upload.run u))) = Some (Upload.file u).
Proof.
  intros ext n path. subst ext n path.
  rewrite uploadBase64Image_run. cbn zeta.
  intros Hs Hf. rewrite Hs.
  destruct u as [cfg ext d f uid m w]. upload_defs. cbn in *.
  destruct (fault ext (S (calls w)) _); cbn.
  - split; [reflexivity|]. now rewrite String.eqb_refl.
  - destruct (fault ext (S (S (calls w))) _); cbn.
    + split; [reflexivity|]. now rewrite String.eqb_refl.
    + destruct Hf as [H|H]; now elim H.
Qed.

Lemma uploadBase64Image_partial_failure_witness :
  fst (Upload.run Fixtures.halfUpload)
  = Throw (Js.Error "Base64 image upload failed") /\
  lookup (Upload.filePath Fixtures.halfUpload)
         (gcs (snd (Upload.run Fixtures.halfUpload)))
  = Some (Upload.file Fixtures.halfUpload).
Proof.
  apply (uploadBase64Image_partial_failure Fixtures.halfUpload).
  - vm_compute. reflexivity.
  - left. vm_compute. discriminate.
Defined.

Lemma substring0_prefix (n : nat) (s : string) :
  String.prefix (Js.substring0 n s) s = true.
Proof.
  unfold Js.substring0. revert n.
  induction s as [|c s IH]; intros [|n]; cbn; try reflexivity.
  destruct (ascii_dec c c) as [_|ne]; [apply IH | now elim ne].
Qed.

Lemma substring0_length (n : nat) (s : string) :
  String.length (Js.substring0 n s) = Nat.min n (String.length s).
Proof.
  unfold Js.substring0. revert n.
  induction s as [|c s IH]; intros [|n]; cbn; try reflexivity.
  now rewrite IH.
Qed.

Lemma new_calls_recovered (a : Attempt.t) (e : Js.Thrown) (w1 : World)
      (stage : list Call) :
  trace w1 = (trace (Attempt.world a) ++ stage)%list ->
  new_calls (Attempt.world a) (Attempt.recovered a e w1)
  = (stage ++ [Attempt.failureWrite a e])%list.
Proof.
  intros H. unfold new_calls.
  rewrite (proj1 (recovered_spec a e w1)), H, <- app_assoc.
  apply skipn_past.
Qed.

(** X16: once the model has answered with a candidate, the attempt saves
    exactly one object, at the attempt's path, tagged with the caller's id,
    the attempt id and the prompt cut to its first 100 characters. *)
Theorem artifact_is_attributed (a : Attempt.t) :
  Attempt.generated a = true ->
  exists file tag,
    savedFiles (new_calls (Attempt.world a) (snd (Attempt.run a)))
    = [(Attempt.filePath a, file)] /\
    lookup "userId" (metadata file) = Some (Attempt.userId a) /\
    lookup "imageId" (metadata file)
    = Some (uuidv4 (Attempt.ext a) (uuids (Attempt.world a))) /\
    lookup "prompt" (metadata file) = Some tag /\
    String.prefix tag (Attempt.prompt a) = true /\
    String.length tag = Nat.min 100 (String.length (Attempt.prompt a)).
Proof.
  intros G. exists (Attempt.file a), (Js.substring0 100 (Attempt.prompt a)).
  split.
  - rewrite generateImage_run. cbn zeta.
    unfold Attempt.generated in G.
    destruct (Attempt.generationFault a); [discriminate|].
    destruct (Attempt.response a) as [[|c cs]|]; try discriminate.
    destruct (Attempt.saveFault a).
    { cbn [snd].
      rewrite (new_calls_recovered a _ _
                 [Attempt.generationCall a;
                  FileSave (Attempt.filePath a) (Attempt.file a)]);
        [reflexivity|]. cbn. now rewrite <- app_assoc. }
    destruct (Attempt.makePublicFault a).
    { cbn [snd].
      rewrite (new_calls_recovered a _ _
                 [Attempt.generationCall a;
                  FileSave (Attempt.filePath a) (Attempt.file a);
                  FileMakePublic (Attempt.filePath a)]);
        [reflexivity|]. cbn. now rewrite <- !app_assoc. }
    destruct (Attempt.getMetadataFault a).
    { cbn [snd].
      rewrite (new_calls_recovered a _ _
                 [Attempt.generationCall a;
                  FileSave (Attempt.filePath a) (Attempt.file a);
                  FileMakePublic (Attempt.filePath a);
                  FileGetMetadata (Attempt.filePath a)]);
        [reflexivity|]. cbn. now rewrite <- !app_assoc. }
    destruct (Attempt.recordFault a).
    { cbn [snd].
      rewrite (new_calls_recovered a _ _
                 [Attempt.generationCall a;
                  FileSave (Attempt.filePath a) (Attempt.file a);
                  FileMakePublic (Attempt.filePath a);
                  FileGetMetadata (Attempt.filePath a);
                  DocSet (Attempt.collection a) (Attempt.imageId a)
                         (Attempt.successRecord a)]);
        [reflexivity|]. cbn. now rewrite <- !app_assoc. }
    cbn [snd].
    unfold Attempt.done, Attempt.afterRecord, Attempt.afterGetMetadata,
      Attempt.afterMakePublic, Attempt.afterSave, Attempt.afterGeneration.
    now made.
  - split; [reflexivity|]. split; [reflexivity|]. split; [reflexivity|].
    split; [apply substring0_prefix | apply substring0_length].
Qed.

Lemma artifact_is_attributed_witness :
  exists file,
    savedFiles (new_calls Fixtures.emptyWorld
                  (snd (Attempt.run (Fixtures.sunset Fixtures.bucketDown
                                       Fixtures.emptyWorld))))
    = [("users/alice/images/uuid-1.png", file)] /\
    lookup "userId" (metadata file) = Some "alice".
Proof.
  destruct (artifact_is_attributed
              (Fixtures.sunset Fixtures.bucketDown Fixtures.emptyWorld)
              eq_refl) as (file & tag & H & Hu & _).
  exists file. split; [exact H | exact Hu].
Defined.

(* ================================================================= *)
(** * The handlers: further properties *)

(** [trim] leaves nothing exactly of the strings made of TAB, LF, VT, FF,
    CR, spaces and no-break spaces. *)
Lemma trim_is_empty_iff (s : string) :
  Js.trim_is_empty s = true <->
  Forall (fun c => In (nat_of_ascii c) [9; 10; 11; 12; 13; 32; 160]%nat)
         (list_ascii_of_string s).
Proof.
  unfold Js.trim_is_empty.
  assert (sp : forall c,
             Js.is_space c = true <->
             In (nat_of_ascii c) [9; 10; 11; 12; 13; 32; 160]%nat).
  { intros c. unfold Js.is_space. cbn zeta.
    rewrite !Bool.orb_true_iff, Bool.andb_true_iff, !Nat.eqb_eq,
      !Nat.leb_le.
    cbn [In]. lia. }
  induction s as [|c s IH]; cbn [Js.all_space list_ascii_of_string].
  - split; [constructor | reflexivity].
  - rewrite Bool.andb_true_iff, sp, IH. split.
    + intros [H1 H2]. now constructor.
    + intros H. inversion H. now split.
Qed.

(** A prompt made of a no-break space and a tab is blank. *)
Example no_break_space_is_blank :
  fst (imageController.generateImage Fixtures.cfg Fixtures.healthy
         (imageController.mkRequest (Some "alice")
            (String (ascii_of_nat 160) (String (ascii_of_nat 9) EmptyString))
            None EmptyString)
         Fixtures.emptyWorld)
  = Ok (imageController.mkResponse 400
          (imageController.Failure "Prompt is required")).
Proof. reflexivity. Qed.

(** X17: a request without a caller id is answered 401, and a request whose
    prompt is empty or blank is answered 400; in both cases the handler
    makes no external call, draws no id and leaves the collections and the
    bucket as they were. *)
Theorem generateImage_rejects_early (cfg : Config.t) (ext : External)
        (req : imageController.Request) (w : World) :
  let r := imageController.generateImage cfg ext req w in
  let blank := negb (Js.truthy (imageController.body_prompt req))
               || Js.trim_is_empty (imageController.body_prompt req) in
  let untouched :=
    new_calls w (snd r) = [] /\ firestore (snd r) = firestore w /\
    gcs (snd r) = gcs w /\ uuids (snd r) = uuids w in
  (Js.truthy_opt (imageController.user_id req) = false ->
   fst r = Ok (imageController.mkResponse 401
                 (imageController.Failure "User not authenticated")) /\
   untouched) /\
  (Js.truthy_opt (imageController.user_id req) = true -> blank = true ->
   fst r = Ok (imageController.mkResponse 400
                 (imageController.Failure "Prompt is required")) /\
   untouched).
Proof.
  intros r blank untouched. subst r blank untouched.
  assert (silent : forall w0 : World,
             skipn (List.length (trace w0)) (trace w0) = [])
    by (intros w0; apply skipn_all).
  unfold imageController.generateImage, Js.truthy_opt, new_calls.
  destruct (imageController.user_id req) as [userId|].
  - destruct (Js.truthy userId); run.
    + split; [discriminate|]. intros _ ->. cbn.
      rewrite silent. now repeat split.
    + split; [|discriminate]. intros _. cbn.
      rewrite silent. now repeat split.
  - run. split; [|discriminate]. intros _. cbn.
    rewrite silent. now repeat split.
Qed.

Lemma generateImage_rejects_early_witness :
  fst (imageController.generateImage Fixtures.cfg Fixtures.healthy
         (imageController.mkRequest (Some "alice") "   " None EmptyString)
         Fixtures.emptyWorld)
  = Ok (imageController.mkResponse 400
          (imageController.Failure "Prompt is required")).
Proof.
  apply (proj2 (generateImage_rejects_early Fixtures.cfg Fixtures.healthy
                  (imageController.mkRequest (Some "alice") "   " None
                     EmptyString)
                  Fixtures.emptyWorld));
    reflexivity.
Defined.

(** The record behind a 201 answer. *)
Lemma generateImage_created_record (cfg : Config.t) (ext : External)
      (req : imageController.Request) (w : World)
      (resp : imageController.Response) :
  fst (imageController.generateImage cfg ext req w) = Ok resp ->
  imageController.statusCode resp = 201%nat ->
  exists id url dims createdAt record,
    imageController.json resp
    = imageController.Generated id url (imageController.body_prompt req)
        (imageController.body_styleParams req) dims createdAt /\
    lookup id (firestore (snd (imageController.generateImage cfg ext req w))
                 (Config.imagesCollection cfg)) = Some record /\
    Image.status record = completed /\
    imageController.user_id req = Some (Image.userId record) /\
    Js.truthy (Image.userId record) = true /\
    Image.prompt record = imageController.body_prompt req /\
    Image.gcsUrl record = Some url /\
    Image.dimensions record = Some dims.
Proof.
  unfold imageController.generateImage.
  destruct (imageController.user_id req) as [userId|]; run;
    [|intros [= <-]; discriminate].
  destruct (Js.truthy userId) eqn:T; run; [|intros [= <-]; discriminate].
  destruct (negb (Js.truthy (imageController.body_prompt req))
            || Js.trim_is_empty (imageController.body_prompt req));
    run; [intros [= <-]; discriminate|].
  destruct (ImageGenerationService.hasReachedDailyLimit cfg ext userId _)
    as [[[|]|t] w2]; run; try (intros [= <-]; discriminate).
  pose (a := Attempt.start cfg ext userId (imageController.body_prompt req)
               (imageController.body_styleParams req) w2).
  change (ImageGenerationService.generateImage cfg ext userId
            (imageController.body_prompt req)
            (imageController.body_styleParams req) w2)
    with (Attempt.run a).
  destruct (Attempt.run a) as [[r|t] w3] eqn:E; run;
    [|intros [= <-]; discriminate].
  intros [= <-] _.
  assert (H : fst (Attempt.run a) = Ok r) by now rewrite E.
  apply generateImage_ok_inv in H as [-> Hw]. rewrite E in Hw. cbn in Hw.
  subst w3.
  exists (Attempt.imageId a),
         (UploadResult.publicUrl (Attempt.uploadResult a)),
         (Attempt.dimensions a), (clock (Attempt.done a)),
         (Attempt.successRecord a).
  split; [reflexivity|]. split.
  { cbn -[lookup doc_set]. rewrite String.eqb_refl. apply lookup_doc_set. }
  split; [reflexivity|]. split; [reflexivity|]. split; [exact T|].
  split; [reflexivity|]. split; reflexivity.
Qed.

(** X18: when the handler answers 201, the body repeats the prompt and the
    style parameters of the request, and the configured collection holds,
    under the id of the body, a [completed] record of the caller with the
    URL, the dimensions and the prompt of the body. *)
Theorem generateImage_created (cfg : Config.t) (ext : External)
        (req : imageController.Request) (w : World)
        (resp : imageController.Response) :
  fst (imageController.generateImage cfg ext req w) = Ok resp ->
  imageController.statusCode resp = 201%nat ->
  match imageController.json resp with
  | imageController.Generated id url prompt styleParams dims _ =>
      prompt = imageController.body_prompt req /\
      styleParams = imageController.body_styleParams req /\
      exists record,
        lookup id
          (firestore (snd (imageController.generateImage cfg ext req w))
             (Config.imagesCollection cfg)) = Some record /\
        Image.status record = completed /\
        imageController.user_id req = Some (Image.userId record) /\
        Image.prompt record = prompt /\
        Image.gcsUrl record = Some url /\
        Image.dimensions record = Some dims
  | _ => False
  end.
Proof.
  intros H S.
  destruct (generateImage_created_record cfg ext req w resp H S)
    as (id & url & dims & t & record & -> & L & Hs & Hu & _ & Hp & Hg & Hd).
  split; [reflexivity|]. split; [reflexivity|].
  exists record. repeat split; assumption.
Qed.

(** X19: when the configured collection is ["images"], an image the handler
    has just created can be read back by its caller: [getImageById] with the
    id of the 201 body answers 200 with the record whose URL is the one of
    the body, provided the store answers the read. *)
Theorem created_image_is_readable (cfg : Config.t) (ext : External)
        (req : imageController.Request) (w : World)
        (resp : imageController.Response)
        (id url prompt : string) (styleParams : option StyleParams.t)
        (dims : Dimensions) (createdAt : Z) :
  Config.imagesCollection cfg = "images" ->
  fst (imageController.generateImage cfg ext req w) = Ok resp ->
  imageController.statusCode resp = 201%nat ->
  imageController.json resp
  = imageController.Generated id url prompt styleParams dims createdAt ->
  let w' := snd (imageController.generateImage cfg ext req w) in
  fault ext (calls w') (DocGet "images" id) = None ->
  exists record,
    fst (imageController.getImageById ext
           (imageController.mkRequest (imageController.user_id req)
              prompt styleParams id) w')
    = Ok (imageController.mkResponse 200
            (imageController.Found (id, record))) /\
    Image.gcsUrl record = Some url /\
    Image.status record = completed.
Proof.
  intros C H S J w' F. subst w'.
  destruct (generateImage_created_record cfg ext req w resp H S)
    as (id' & url' & dims' & t & record & J' & L & Hs & Hu & Ht & _ & Hg & _).
  rewrite J in J'. injection J' as -> -> _ _ -> _.
  rewrite C in L.
  exists record. split; [|now split].
  unfold imageController.getImageById. cbn. rewrite Hu. run. rewrite Ht. run.
  rewrite findById_run, F, L. cbn. now rewrite String.eqb_refl.
Qed.

Lemma generateImage_created_witness :
  imageController.statusCode
    (imageController.mkResponse 201
       (imageController.Generated "uuid-0"
          "https://storage.googleapis.com/pixology-images/users/alice/images/uuid-1.png"
          "sunset" None (mkDimensions 1024 1024) Fixtures.now))
  = 201%nat /\
  lookup "uuid-0"
    (firestore
       (snd (imageController.generateImage Fixtures.cfg Fixtures.healthy
               (Fixtures.request "alice" EmptyString) Fixtures.emptyWorld))
       "images")
  <> None.
Proof.
  split; [reflexivity|].
  assert (H : fst (imageController.generateImage Fixtures.cfg
                     Fixtures.healthy (Fixtures.request "alice" EmptyString)
                     Fixtures.emptyWorld)
              = Ok (imageController.mkResponse 201
                      (imageController.Generated "uuid-0"
                         "https://storage.googleapis.com/pixology-images/users/alice/images/uuid-1.png"
                         "sunset" None (mkDimensions 1024 1024)
                         Fixtures.now)))
    by (vm_compute; reflexivity).
  destruct (generateImage_created Fixtures.cfg Fixtures.healthy
              (Fixtures.request "alice" EmptyString) Fixtures.emptyWorld _
              H eq_refl) as (_ & _ & record & L & _).
  change (Config.imagesCollection Fixtures.cfg) with "images" in L.
  rewrite L. discriminate.
Defined.

Lemma created_image_is_readable_witness :
  exists record,
    fst (imageController.getImageById Fixtures.healthy
           (imageController.mkRequest (Some "alice") "sunset" None "uuid-0")
           (snd (imageController.generateImage Fixtures.cfg Fixtures.healthy
                   (Fixtures.request "alice" EmptyString)
                   Fixtures.emptyWorld)))
    = Ok (imageController.mkResponse 200
            (imageController.Found ("uuid-0", record))).
Proof.
  assert (H : fst (imageController.generateImage Fixtures.cfg
                     Fixtures.healthy (Fixtures.request "alice" EmptyString)
                     Fixtures.emptyWorld)
              = Ok (imageController.mkResponse 201
                      (imageController.Generated "uuid-0"
                         "https://storage.googleapis.com/pixology-images/users/alice/images/uuid-1.png"
                         "sunset" None (mkDimensions 1024 1024)
                         Fixtures.now)))
    by (vm_compute; reflexivity).
  destruct (created_image_is_readable Fixtures.cfg Fixtures.healthy
              (Fixtures.request "alice" EmptyString) Fixtures.emptyWorld _
              "uuid-0" _ "sunset" None (mkDimensions 1024 1024) Fixtures.now
              eq_refl H eq_refl eq_refl eq_refl) as (record & R & _).
  exists record. exact R.
Defined.

(** X20: [getImageById] always answers, with 200 and a record or with one
    of four fixed failure bodies, so that no error of the store reaches the
    client; it makes at most one external call, the read of the document,
    and writes nothing. *)
Theorem getImageById_answers (ext : External)
        (req : imageController.Request) (w : World) :
  let r := imageController.getImageById ext req w in
  exists resp,
    fst r = Ok resp /\
    match imageController.json resp with
    | imageController.Found _ => imageController.statusCode resp = 200%nat
    | imageController.Failure msg =>
        In (imageController.statusCode resp, msg)
           [ (401%nat, "User not authenticated");
             (404%nat, "Image not found");
             (403%nat, "Forbidden. You do not have access to this image.");
             (500%nat, "Failed to retrieve image") ]
    | imageController.Generated _ _ _ _ _ _ => False
    end /\
    (new_calls w (snd r) = [] \/
     new_calls w (snd r)
     = [DocGet "images" (imageController.params_imageId req)]) /\
    firestore (snd r) = firestore w /\
    gcs (snd r) = gcs w.
Proof.
  intros r. subst r.
  assert (silent : forall w0 : World,
             skipn (List.length (trace w0)) (trace w0) = [])
    by (intros w0; apply skipn_all).
  unfold imageController.getImageById.
  destruct (imageController.user_id req) as [userId|]; run.
  2: { eexists. split; [reflexivity|]. cbn. unfold new_calls. cbn.
       rewrite silent. repeat split; auto. }
  destruct (Js.truthy userId); run.
  2: { eexists. split; [reflexivity|]. cbn. unfold new_calls. cbn.
       rewrite silent. repeat split; auto. }
  rewrite findById_run.
  destruct (fault ext (calls w) _); cbn.
  { eexists. split; [reflexivity|]. cbn.
    split; [auto 6|]. split; [right; now made|]. now split. }
  destruct (lookup _ (firestore w "images")) as [image|]; cbn.
  2: { eexists. split; [reflexivity|]. cbn.
       split; [auto|]. split; [right; now made|]. now split. }
  destruct (Image.userId image =? userId); cbn;
    (eexists; split; [reflexivity|]); cbn.
  - split; [reflexivity|]. split; [right; now made|]. now split.
  - split; [auto 6|]. split; [right; now made|]. now split.
Qed.

(** Every attempt calls the model first. *)
Lemma attempt_trace (a : Attempt.t) :
  exists rest,
    trace (snd (Attempt.run a))
    = (trace (Attempt.world a) ++ Attempt.generationCall a :: rest)%list.
Proof.
  rewrite generateImage_run. cbn zeta.
  repeat match goal with
         | |- context [match ?x with _ => _ end] => destruct x
         end; cbn [snd];
    try rewrite (proj1 (recovered_spec a _ _));
    unfold Attempt.done, Attempt.recordFailed, Attempt.uploadFailed,
      Attempt.afterRecord, Attempt.afterGetMetadata, Attempt.afterMakePublic,
      Attempt.afterSave, Attempt.afterGeneration;
    cbn; rewrite <- ?app_assoc; cbn; eexists; reflexivity.
Qed.

(** X21: the gate fails open at the handler too: when the read of the quota
    check fails, an authenticated request with a non-blank prompt is not
    answered 429; the handler goes on to the generation and answers 201 or
    500. *)
Theorem generateImage_quota_outage (cfg : Config.t) (ext : External)
        (req : imageController.Request) (userId : string) (w : World)
        (t : Js.Thrown) :
  imageController.user_id req = Some userId ->
  Js.truthy userId = true ->
  negb (Js.truthy (imageController.body_prompt req))
  || Js.trim_is_empty (imageController.body_prompt req) = false ->
  fault ext (calls w) (Quota.query cfg userId) = Some t ->
  exists resp,
    fst (imageController.generateImage cfg ext req w) = Ok resp /\
    (imageController.statusCode resp = 201%nat \/
     imageController.statusCode resp = 500%nat) /\
    In (GenerateContent (Config.imageModel cfg)
          (enhancedPrompt (imageController.body_prompt req)
             (imageController.body_styleParams req)))
       (new_calls w (snd (imageController.generateImage cfg ext req w))).
Proof.
  intros Hu Ht Hp F.
  unfold imageController.generateImage.
  rewrite Hu. run. rewrite Ht. cbn. run. rewrite Hp. run.
  change (ImageGenerationService.hasReachedDailyLimit cfg ext userId ?w0)
    with (Quota.run cfg ext userId w0).
  rewrite hasReachedDailyLimit_run. cbn. rewrite F. run.
  match goal with
  | |- context [ImageGenerationService.generateImage cfg ext userId ?p ?s ?w0] =>
      pose (a := Attempt.start cfg ext userId p s w0);
      change (ImageGenerationService.generateImage cfg ext userId p s w0)
        with (Attempt.run a)
  end.
  destruct (attempt_trace a) as [rest Htrace].
  destruct (Attempt.run a) as [[r|e] w3]; run; cbn [snd] in Htrace;
    (eexists; split; [reflexivity|]); cbn [imageController.statusCode];
    (split; [auto|]);
    unfold new_calls; cbn [trace add_log snd]; rewrite Htrace;
    subst a; cbn; rewrite <- app_assoc, skipn_past; cbn; auto.
Qed.

Lemma generateImage_quota_outage_witness :
  exists resp,
    fst (imageController.generateImage Fixtures.cfg Fixtures.firestoreDown
           (Fixtures.request "alice" EmptyString) Fixtures.atLimit) = Ok resp /\
    (imageController.statusCode resp = 201%nat \/
     imageController.statusCode resp = 500%nat).
Proof.
  destruct (generateImage_quota_outage Fixtures.cfg Fixtures.firestoreDown
              (Fixtures.request "alice" EmptyString) "alice" Fixtures.atLimit
              (Js.Error "14 UNAVAILABLE: firestore")
              eq_refl eq_refl eq_refl eq_refl) as (resp & H & S & _).
  exists resp. split; [exact H | exact S].
Defined.

Lemma doc_set_In (id : string) (d : Image.t) (c : Collection) :
  In (id, d) (doc_set id d c).
Proof.
  induction c as [|[k v] c IH]; cbn; [now left|].
  destruct (String.compare id k); cbn; auto.
Qed.

(** X22: an image an attempt has just returned is part of its caller's
    history: when the store answers and the caller's records are no more
    than the limit, or the limit is 0, [getUserImageHistory] in the world
    the attempt ends in lists the [completed] record under the returned
    id. *)
Theorem created_image_in_history (a : Attempt.t)
        (r : ImageGenerationResult.t) (limit : nat) :
  fst (Attempt.run a) = Ok r ->
  let w' := snd (Attempt.run a) in
  let cfg := Attempt.cfg a in
  let lim := if (limit =? 0)%nat then None else Some limit in
  fault (Attempt.ext a) (calls w')
        (QueryGet (Config.imagesCollection cfg) "userId" (Attempt.userId a) lim)
  = None ->
  limit = 0%nat \/
  (List.length (Quota.history cfg (Attempt.userId a) w') <= limit)%nat ->
  exists images record,
    fst (ImageGenerationService.getUserImageHistory cfg (Attempt.ext a)
           (Attempt.userId a) limit w') = Ok images /\
    In (ImageGenerationResult.imageId r, record) images /\
    Image.status record = completed /\
    Image.gcsUrl record = Some (ImageGenerationResult.imageUrl r).
Proof.
  intros H w' cfg lim F L. subst w' cfg lim.
  apply generateImage_ok_inv in H as [-> Hw]. rewrite Hw in *.
  rewrite getUserImageHistory_run. cbn zeta. rewrite F. cbn [fst].
  eexists. exists (Attempt.successRecord a). split; [reflexivity|].
  split; [|split; reflexivity].
  assert (Hin : In (Attempt.imageId a, Attempt.successRecord a)
                   (Quota.history (Attempt.cfg a) (Attempt.userId a)
                      (Attempt.done a))).
  { unfold Quota.history. apply filter_In. split.
    - cbn -[doc_set]. unfold Attempt.collection.
      rewrite String.eqb_refl. apply doc_set_In.
    - cbn [snd]. rewrite field_is_userId. apply String.eqb_refl. }
  unfold Quota.history in Hin, L.
  destruct (Nat.eqb_spec limit 0) as [->|ne]; [exact Hin|].
  destruct L as [L|L]; [contradiction|].
  rewrite firstn_all2 by exact L. exact Hin.
Qed.

Lemma created_image_in_history_witness :
  exists images record,
    fst (ImageGenerationService.getUserImageHistory Fixtures.cfg
           Fixtures.healthy "alice" 50
           (snd (Attempt.run (Fixtures.sunset Fixtures.healthy
                                Fixtures.belowLimit)))) = Ok images /\
    In ("uuid-0", record) images.
Proof.
  assert (H : fst (Attempt.run (Fixtures.sunset Fixtures.healthy
                                  Fixtures.belowLimit))
              = Ok (Attempt.result (Fixtures.sunset Fixtures.healthy
                                      Fixtures.belowLimit)))
    by (vm_compute; reflexivity).
  assert (L : 50%nat = 0%nat \/
              (List.length
                 (Quota.history Fixtures.cfg "alice"
                    (snd (Attempt.run (Fixtures.sunset Fixtures.healthy
                                         Fixtures.belowLimit)))) <= 50)%nat).
  { right. vm_compute. lia. }
  destruct (created_image_in_history
              (Fixtures.sunset Fixtures.healthy Fixtures.belowLimit) _ 50
              H eq_refl L) as (images & record & Hi & Hin & _).
  exists images, record. split; [exact Hi | exact Hin].
Defined.
